(** * TMDB ingestion Lambda: a shallow embedding of [lambda_function.py]

    The Python module fetches paginated movie data from TMDB, maps each
    record to a fixed row and uploads three CSV objects to S3.  This file
    embeds the module function by function and proves properties of the
    pager, the row mapper, the API client and the CSV sink.

    Conventions.
    - A Python [str] is a Rocq [string], one [ascii] per character (code
      points 0..255); strings with other characters are not represented.
    - A Python [int] is a [Z]; a [float] is [pyfloat]: NaN, an infinity, or
      the dyadic rational [m * 2^e] (every IEEE double is one of these).
    - A [dict] with string keys is an association list in insertion order;
      lookup takes the first binding, update replaces in place or appends.
    - Effects (network, log, object store) are threaded through an explicit
      state; exceptions are an outcome of the computation.
    - The [while True] loop of the pager takes a fuel argument that bounds
      the number of times [page += 1] is executed. *)

From Stdlib Require Import ZArith String Ascii List Bool Lia DecimalString.
Import ListNotations.
Local Open Scope string_scope.
Local Open Scope list_scope.
Local Open Scope Z_scope.

Set Warnings "-register-all".

Infix "+++" := String.append (right associativity, at level 60).

(** ** Python values *)

Inductive pyfloat : Type :=
| FNaN
| FInf (negative : bool)
| FFin (m e : Z).

Inductive pyval : Type :=
| PyNone
| PyBool (b : bool)
| PyInt (n : Z)
| PyFloat (f : pyfloat)
| PyStr (s : string)
| PyList (l : list pyval)
| PyDict (d : list (string * pyval)).

Definition dict : Type := list (string * pyval).

(** Exceptions: the class name, the message ([str(e)]) and, for the
    [HTTPError] of urllib, the status code and the body of the response it
    wraps ([e.code], [e.read()]). *)
Record exn : Type := Build_exn {
  exn_class : string;
  exn_text : string;
  exn_response : option (Z * string)
}.

(** An exception that wraps no response. *)
Definition mk_exn (cls text : string) : exn := Build_exn cls text None.

Inductive outcome (A : Type) : Type :=
| Return (a : A)
| Raise (e : exn)
| OutOfFuel.
Arguments Return {A} a.
Arguments Raise {A} e.
Arguments OutOfFuel {A}.

Definition bind_outcome {A B : Type} (o : outcome A) (k : A -> outcome B)
  : outcome B :=
  match o with
  | Return a => k a
  | Raise e => Raise e
  | OutOfFuel => OutOfFuel
  end.

Notation "x <~ o ;; k" := (bind_outcome o (fun x => k))
  (at level 61, o at next level, right associativity).

Definition RuntimeError (msg : string) : exn := mk_exn "RuntimeError" msg.
Definition AttributeError (msg : string) : exn := mk_exn "AttributeError" msg.
Definition TypeError (msg : string) : exn := mk_exn "TypeError" msg.

(** Library functions of the Python runtime that the module calls and that
    are not modelled here: [float.__repr__], [str.__repr__], [json.loads]
    and [json.dumps]. *)
Record Runtime : Type := mk_runtime {
  float_repr : pyfloat -> string;
  str_repr : string -> string;
  json_loads : string -> outcome pyval;
  json_dumps : pyval -> string
}.

(** ** Strings and conversions *)

Definition dquote : string := String (ascii_of_nat 34) EmptyString.
Definition CR : ascii := ascii_of_nat 13.
Definition LF : ascii := ascii_of_nat 10.
Definition CRLF : string := String CR (String LF EmptyString).

Definition str_is_empty (s : string) : bool :=
  match s with EmptyString => true | String _ _ => false end.

(** [sep.join(l)] *)
Fixpoint join (sep : string) (l : list string) : string :=
  match l with
  | [] => EmptyString
  | [x] => x
  | x :: rest => x +++ sep +++ join sep rest
  end.

(** [str(n)] for an int. *)
Definition int_str (n : Z) : string := NilZero.string_of_int (Z.to_int n).

Definition type_name (v : pyval) : string :=
  match v with
  | PyNone => "NoneType"
  | PyBool _ => "bool"
  | PyInt _ => "int"
  | PyFloat _ => "float"
  | PyStr _ => "str"
  | PyList _ => "list"
  | PyDict _ => "dict"
  end.

Definition bool_str (b : bool) : string := if b then "True" else "False".

Fixpoint py_repr (rt : Runtime) (v : pyval) : string :=
  match v with
  | PyNone => "None"
  | PyBool b => bool_str b
  | PyInt n => int_str n
  | PyFloat f => float_repr rt f
  | PyStr s => str_repr rt s
  | PyList l => "[" +++ join ", " (map (py_repr rt) l) +++ "]"
  | PyDict d =>
      "{" +++ join ", "
        (map (fun kv => match kv with
                        | (k, x) => str_repr rt k +++ ": " +++ py_repr rt x
                        end) d) +++ "}"
  end.

(** [str(v)] *)
Definition py_str (rt : Runtime) (v : pyval) : string :=
  match v with
  | PyStr s => s
  | _ => py_repr rt v
  end.

(** ** Dictionaries *)

Fixpoint dict_get (d : dict) (k : string) : option pyval :=
  match d with
  | [] => None
  | (k', v) :: rest => if String.eqb k' k then Some v else dict_get rest k
  end.

(** [d[k] = v] *)
Fixpoint dict_set (d : dict) (k : string) (v : pyval) : dict :=
  match d with
  | [] => [(k, v)]
  | (k', v') :: rest =>
      if String.eqb k' k then (k', v) :: rest else (k', v') :: dict_set rest k v
  end.

(** [o.get(k, default)]: only a dict has the method. *)
Definition py_get (o : pyval) (k : string) (default : pyval) : outcome pyval :=
  match o with
  | PyDict d =>
      Return (match dict_get d k with Some v => v | None => default end)
  | _ =>
      Raise (AttributeError
               ("'" +++ type_name o +++ "' object has no attribute 'get'"))
  end.

(** [len(v)] *)
Definition py_len (v : pyval) : outcome Z :=
  match v with
  | PyStr s => Return (Z.of_nat (String.length s))
  | PyList l => Return (Z.of_nat (List.length l))
  | PyDict d => Return (Z.of_nat (List.length d))
  | _ => Raise (TypeError
                  ("object of type '" +++ type_name v +++ "' has no len()"))
  end.

Fixpoint str_chars (s : string) : list pyval :=
  match s with
  | EmptyString => []
  | String c rest => PyStr (String c EmptyString) :: str_chars rest
  end.

(** The items produced by iterating over [v]. *)
Definition py_iter (v : pyval) : outcome (list pyval) :=
  match v with
  | PyStr s => Return (str_chars s)
  | PyList l => Return l
  | PyDict d => Return (map (fun kv => PyStr (fst kv)) d)
  | _ => Raise (TypeError ("'" +++ type_name v +++ "' object is not iterable"))
  end.

(** ** Numeric comparison *)

(** The order of a float against an int; NaN is unordered. *)
Definition float_cmp_int (f : pyfloat) (n : Z) : option comparison :=
  match f with
  | FNaN => None
  | FInf negative => Some (if negative then Lt else Gt)
  | FFin m e =>
      Some (if 0 <=? e then (m * 2 ^ e ?= n) else (m ?= n * 2 ^ (- e)))
  end.

(** [v > n] for an int [n]. *)
Definition py_gt_int (v : pyval) (n : Z) : outcome bool :=
  match v with
  | PyInt k => Return (k >? n)
  | PyBool b => Return ((if b then 1 else 0) >? n)
  | PyFloat f =>
      Return (match float_cmp_int f n with Some Gt => true | _ => false end)
  | _ => Raise (TypeError
                  ("'>' not supported between instances of '"
                     +++ type_name v +++ "' and 'int'"))
  end.

(** [n >= v] for an int [n]. *)
Definition py_int_ge (n : Z) (v : pyval) : outcome bool :=
  match v with
  | PyInt k => Return (n >=? k)
  | PyBool b => Return (n >=? (if b then 1 else 0))
  | PyFloat f =>
      Return (match float_cmp_int f n with
              | Some Lt | Some Eq => true
              | _ => false
              end)
  | _ => Raise (TypeError
                  ("'>=' not supported between instances of 'int' and '"
                     +++ type_name v +++ "'"))
  end.

(** ** Row mapper *)

Definition movie_to_row (rt : Runtime) (movie : pyval) : outcome (list pyval) :=
  genre_ids <~ py_get movie "genre_ids" (PyList []) ;;
  let genre_ids_str :=
    match genre_ids with
    | PyList l => join "," (map (py_str rt) l)
    | PyNone => EmptyString
    | _ => py_str rt genre_ids
    end in
  id <~ py_get movie "id" (PyStr EmptyString) ;;
  title <~ py_get movie "title" (PyStr EmptyString) ;;
  release_date <~ py_get movie "release_date" (PyStr EmptyString) ;;
  vote_average <~ py_get movie "vote_average" (PyStr EmptyString) ;;
  vote_count <~ py_get movie "vote_count" (PyStr EmptyString) ;;
  popularity <~ py_get movie "popularity" (PyStr EmptyString) ;;
  original_language <~ py_get movie "original_language" (PyStr EmptyString) ;;
  adult <~ py_get movie "adult" (PyStr EmptyString) ;;
  video <~ py_get movie "video" (PyStr EmptyString) ;;
  Return [ id; title; release_date; vote_average; vote_count; popularity;
           original_language;
           PyStr genre_ids_str;
           PyStr (py_str rt adult);
           PyStr (py_str rt video) ].

(** ** Module constants *)

Definition S3_BUCKET : string := "tmdb-data-071125".
Definition TOP_RATED_KEY : string := "tmdb/raw/top_rated/top_rated_movies.csv".
Definition UPCOMING_KEY : string := "tmdb/raw/upcoming/upcoming_movies.csv".
Definition GENRES_KEY : string := "tmdb/raw/genres/movie_genres.csv".
Definition TMDB_BASE_URL : string := "https://api.themoviedb.org/3".

(** ** The outside world *)

(** What [urllib.request.Request(url, headers=..., method=...)] holds. *)
Record Request : Type := mk_request {
  req_url : string;
  req_headers : list (string * string);
  req_method : string
}.

(** The keyword arguments of [s3_client.put_object]. *)
Record S3Put : Type := mk_put {
  put_bucket : string;
  put_key : string;
  put_body : string;
  put_content_type : string
}.

(** The environment of one invocation: the token read by [os.getenv], the
    network and the object store.  [urlopen] is what the [n]-th execution
    of the [with urlopen(request)] block meets: an exception (a failure of
    the transport, or of reading or decoding the body), or the final
    response of the server (after the redirects urllib follows), as its
    status code and decoded body; [reason_phrase] is the reason phrase of
    the status line of that response.  [put_object] answers the upload
    that follows [n] accepted ones by raising or by accepting it. *)
Record Env : Type := Build_Env {
  TMDB_API_TOKEN : option string;
  urlopen : nat -> Request -> exn + (Z * string);
  reason_phrase : nat -> Request -> string;
  put_object : nat -> S3Put -> option exn
}.

(** The reason phrases servers usually send. *)
Definition standard_reason (status : Z) : string :=
  if status =? 200 then "OK"
  else if status =? 304 then "Not Modified"
  else if status =? 400 then "Bad Request"
  else if status =? 401 then "Unauthorized"
  else if status =? 404 then "Not Found"
  else if status =? 429 then "Too Many Requests"
  else if status =? 500 then "Internal Server Error"
  else if status =? 503 then "Service Unavailable"
  else "Unknown".

(** An environment whose server sends the usual reason phrases. *)
Definition mk_env (token : option string)
  (net : nat -> Request -> exn + (Z * string))
  (store : nat -> S3Put -> option exn) : Env :=
  Build_Env token net
    (fun n request =>
       match net n request with
       | inr (status, _) => standard_reason status
       | inl _ => EmptyString
       end)
    store.

(** The exception urllib raises for a response whose status is not 2xx. *)
Definition HTTPError (status : Z) (reason body : string) : exn :=
  Build_exn "HTTPError"
    ("HTTP Error " +++ int_str status +++ ": " +++ reason)
    (Some (status, body)).

(** A call into the outside world: [urllib.request.urlopen(request)] or
    [s3_client.put_object(...)]. *)
Inductive call : Type :=
| Urlopen (request : Request)
| PutObject (obj : S3Put).

(** What an invocation has done so far: the requests handed to [urlopen],
    the log records (level, message), the objects accepted by S3 and the
    calls to [urlopen] and [put_object] in the order in which they were
    made, each oldest first. *)
Record state : Type := mk_state {
  st_net : list Request;
  st_log : list (string * string);
  st_s3 : list S3Put;
  st_calls : list call
}.

Definition init_state : state := mk_state [] [] [] [].

Definition M (A : Type) : Type := state -> outcome A * state.

Definition ret {A : Type} (a : A) : M A := fun st => (Return a, st).

Definition raise {A : Type} (e : exn) : M A := fun st => (Raise e, st).

Definition out_of_fuel {A : Type} : M A := fun st => (OutOfFuel, st).

Definition bind {A B : Type} (m : M A) (k : A -> M B) : M B :=
  fun st =>
    match m st with
    | (Return a, st') => k a st'
    | (Raise e, st') => (Raise e, st')
    | (OutOfFuel, st') => (OutOfFuel, st')
    end.

Notation "x <- m ;; k" := (bind m (fun x => k))
  (at level 61, m at next level, right associativity).
Notation "m ;;; k" := (bind m (fun _ => k))
  (at level 61, right associativity).

Definition lift {A : Type} (o : outcome A) : M A := fun st => (o, st).

(** [try: m  except cls as e: handler(e); raise] *)
Definition try_reraise {A : Type} (catches : exn -> bool) (m : M A)
  (handler : exn -> M unit) : M A :=
  fun st =>
    match m st with
    | (Raise e, st') =>
        if catches e then (handler e ;;; raise e) st' else (Raise e, st')
    | r => r
    end.

Definition log (level msg : string) : M unit :=
  fun st =>
    (Return tt,
     mk_state (st_net st) (st_log st ++ [(level, msg)]) (st_s3 st)
       (st_calls st)).

Definition logger_info : string -> M unit := log "INFO".
Definition logger_warning : string -> M unit := log "WARNING".
Definition logger_error : string -> M unit := log "ERROR".

(** ** URL encoding ([urllib.parse.urlencode], which applies [quote_plus]) *)

Definition in_range (lo hi : nat) (c : ascii) : bool :=
  (Nat.leb lo (nat_of_ascii c) && Nat.leb (nat_of_ascii c) hi)%bool.

Definition is_always_safe (c : ascii) : bool :=
  (in_range 65 90 c || in_range 97 122 c || in_range 48 57 c
   || Ascii.eqb c "_" || Ascii.eqb c "." || Ascii.eqb c "-"
   || Ascii.eqb c "~")%bool.

Definition hex_digit (n : nat) : ascii :=
  if Nat.ltb n 10 then ascii_of_nat (48 + n) else ascii_of_nat (55 + n).

Definition percent_byte (n : nat) : string :=
  String "%" (String (hex_digit (Nat.div n 16))
                (String (hex_digit (Nat.modulo n 16)) EmptyString)).

(** The UTF-8 bytes of a code point below 256. *)
Definition utf8_bytes (c : ascii) : list nat :=
  let n := nat_of_ascii c in
  if Nat.ltb n 128 then [n]
  else [(192 + Nat.div n 64)%nat; (128 + Nat.modulo n 64)%nat].

(** [s.encode("utf-8")] on the strings of this file.  Their code points
    are below 256 and all of them encode, so the function is total; the
    [UnicodeEncodeError] Python raises for a lone surrogate (U+D800 to
    U+DFFF) concerns strings that are not represented here. *)
Fixpoint utf8_encode (s : string) : string :=
  match s with
  | EmptyString => EmptyString
  | String c rest =>
      fold_right (fun b acc => String (ascii_of_nat b) acc)
        (utf8_encode rest) (utf8_bytes c)
  end.

Fixpoint quote_plus (s : string) : string :=
  match s with
  | EmptyString => EmptyString
  | String c rest =>
      (if is_always_safe c then String c EmptyString
       else if Ascii.eqb c " " then "+"
       else fold_right (fun b acc => percent_byte b +++ acc)
              EmptyString (utf8_bytes c))
        +++ quote_plus rest
  end.

Definition urlencode (rt : Runtime) (params : dict) : string :=
  join "&"
    (map (fun kv => quote_plus (fst kv) +++ "=" +++ quote_plus (py_str rt (snd kv)))
       params).

(** ** API client *)

(** [if params is None: params = {}] *)
Definition default_dict (params : option dict) : dict :=
  match params with
  | None => []
  | Some p => p
  end.

Definition token_missing (env : Env) : bool :=
  match TMDB_API_TOKEN env with
  | None => true
  | Some t => str_is_empty t
  end.

Definition token_text (env : Env) : string :=
  match TMDB_API_TOKEN env with
  | None => "None"
  | Some t => t
  end.

(** The request object built for [endpoint] and [params]. *)
Definition build_request (rt : Runtime) (env : Env) (endpoint : string)
  (params : dict) : Request :=
  let query := urlencode rt params in
  let url := TMDB_BASE_URL +++ endpoint in
  let url := if str_is_empty query then url else url +++ "?" +++ query in
  let headers := [ ("Authorization", "Bearer " +++ token_text env);
                   ("Accept", "application/json") ] in
  mk_request url headers "GET".

(** [with urlopen(request) as response: (response.getcode(),
    response.read().decode("utf-8"))].  As urllib does (its
    [HTTPErrorProcessor]), the call returns a response only when the status
    is 2xx and raises [HTTPError], which wraps the response, otherwise. *)
Definition do_urlopen (env : Env) (request : Request) : M (Z * string) :=
  fun st =>
    let n := List.length (st_net st) in
    let st' := mk_state (st_net st ++ [request]) (st_log st) (st_s3 st)
                 (st_calls st ++ [Urlopen request]) in
    match urlopen env n request with
    | inl e => (Raise e, st')
    | inr (status, body) =>
        if ((200 <=? status) && (status <? 300))%bool
        then (Return (status, body), st')
        else (Raise (HTTPError status (reason_phrase env n request) body), st')
    end.

Definition is_JSONDecodeError (e : exn) : bool :=
  String.eqb (exn_class e) "JSONDecodeError".

Definition _make_tmdb_request (rt : Runtime) (env : Env) (endpoint : string)
  (params : option dict) : M pyval :=
  if token_missing env then
    logger_error "TMDB_API_TOKEN environment variable is not set" ;;;
    raise (RuntimeError "TMDB_API_TOKEN environment variable is required")
  else
    let params := default_dict params in
    let request := build_request rt env endpoint params in
    logger_info ("Requesting TMDB URL: " +++ req_url request) ;;;
    response <- try_reraise (fun _ => true) (do_urlopen env request)
                  (fun e => logger_error
                              ("HTTP request to TMDB failed: " +++ exn_text e)) ;;
    let status_code := fst response in
    let body := snd response in
    if ((status_code <? 200) || (status_code >=? 300))%bool then
      logger_error ("TMDB API returned status " +++ int_str status_code
                      +++ ": " +++ body) ;;;
      raise (RuntimeError ("TMDB API error " +++ int_str status_code))
    else
      try_reraise is_JSONDecodeError (lift (json_loads rt body))
        (fun e => logger_error
                    ("Failed to parse TMDB response as JSON: " +++ exn_text e
                       +++ ", body: " +++ body)).

(** ** Pager *)

Definition reached_max (max_pages : option Z) (page : Z) : bool :=
  match max_pages with
  | Some m => page >=? m
  | None => false
  end.

(** The [while True] loop of [fetch_all_pages], entered with the current
    [page] and [all_results]; [fuel] bounds the executions of [page += 1]. *)
Fixpoint fetch_loop (rt : Runtime) (env : Env) (fuel : nat) (endpoint : string)
  (extra_params : dict) (max_pages : option Z) (page : Z)
  (all_results : list pyval) : M (list pyval) :=
  let params := dict_set extra_params "page" (PyInt page) in
  data <- _make_tmdb_request rt env endpoint (Some params) ;;
  results <- lift (py_get data "results" (PyList [])) ;;
  total_pages <- lift (py_get data "total_pages" (PyInt 1)) ;;
  over <- lift (py_gt_int total_pages 500) ;;
  total_pages <- (if over : bool then
                    logger_warning (endpoint +++ ": total_pages "
                                      +++ py_str rt total_pages
                                      +++ " > 500, capping at 500") ;;;
                    ret (PyInt 500)
                  else ret total_pages) ;;
  n <- lift (py_len results) ;;
  logger_info ("Fetched page " +++ int_str page +++ " of "
                 +++ py_str rt total_pages +++ " from " +++ endpoint
                 +++ ", items: " +++ int_str n) ;;;
  items <- lift (py_iter results) ;;
  let all_results := all_results ++ items in
  if reached_max max_pages page then ret all_results
  else
    stop <- lift (py_int_ge page total_pages) ;;
    if stop : bool then ret all_results
    else
      match fuel with
      | O => out_of_fuel
      | S fuel' =>
          fetch_loop rt env fuel' endpoint extra_params max_pages (page + 1)
            all_results
      end.

Definition fetch_all_pages (rt : Runtime) (env : Env) (fuel : nat)
  (endpoint : string) (extra_params : option dict) (max_pages : option Z)
  : M (list pyval) :=
  let extra_params := default_dict extra_params in
  all_results <- fetch_loop rt env fuel endpoint extra_params max_pages 1 [] ;;
  logger_info ("Total items fetched from " +++ endpoint +++ ": "
                 +++ int_str (Z.of_nat (List.length all_results))) ;;;
  ret all_results.

Definition fetch_genres (rt : Runtime) (env : Env) : M pyval :=
  data <- _make_tmdb_request rt env "/genre/movie/list"
            (Some [("language", PyStr "en-US")]) ;;
  genres <- lift (py_get data "genres" (PyList [])) ;;
  n <- lift (py_len genres) ;;
  logger_info ("Fetched " +++ int_str n +++ " genres") ;;;
  ret genres.

(** ** Sink: [csv.writer] with the default (excel) dialect, and the upload *)

(** The text of a field: [None] is written as the empty string, a [str] as
    it is, anything else through [str()]. *)
Definition csv_field_text (rt : Runtime) (v : pyval) : string :=
  match v with
  | PyNone => EmptyString
  | _ => py_str rt v
  end.

Definition csv_special (c : ascii) : bool :=
  (Ascii.eqb c "," || Ascii.eqb c (ascii_of_nat 34)
   || Ascii.eqb c CR || Ascii.eqb c LF)%bool.

Fixpoint csv_needs_quote (s : string) : bool :=
  match s with
  | EmptyString => false
  | String c rest => (csv_special c || csv_needs_quote rest)%bool
  end.

Fixpoint csv_double_quotes (s : string) : string :=
  match s with
  | EmptyString => EmptyString
  | String c rest =>
      if Ascii.eqb c (ascii_of_nat 34)
      then String c (String c (csv_double_quotes rest))
      else String c (csv_double_quotes rest)
  end.

Definition csv_field (s : string) : string :=
  if csv_needs_quote s then dquote +++ csv_double_quotes s +++ dquote else s.

(** [writer.writerow(row)]: the text appended to the buffer.  A record
    that would be empty (one empty field) is written as a quoted empty
    field. *)
Definition csv_writerow (rt : Runtime) (row : list pyval) : string :=
  let record := join "," (map (fun v => csv_field (csv_field_text rt v)) row) in
  match row with
  | [] => CRLF
  | _ => if str_is_empty record then dquote +++ dquote +++ CRLF
         else record +++ CRLF
  end.

(** The buffer after [writer.writerow(header)] and one [writerow] per row. *)
Definition csv_text (rt : Runtime) (header : list pyval)
  (rows : list (list pyval)) : string :=
  csv_writerow rt header
    +++ fold_right (fun row acc => csv_writerow rt row +++ acc) EmptyString rows.

Definition do_put_object (env : Env) (obj : S3Put) : M unit :=
  fun st =>
    let calls := st_calls st ++ [PutObject obj] in
    match put_object env (List.length (st_s3 st)) obj with
    | Some e =>
        (Raise e, mk_state (st_net st) (st_log st) (st_s3 st) calls)
    | None =>
        (Return tt,
         mk_state (st_net st) (st_log st) (st_s3 st ++ [obj]) calls)
    end.

Definition write_csv_to_s3 (rt : Runtime) (env : Env) (s3_key : string)
  (header : list pyval) (rows : list (list pyval)) : M unit :=
  logger_info ("Writing CSV to s3://" +++ S3_BUCKET +++ "/" +++ s3_key
                 +++ " with " +++ int_str (Z.of_nat (List.length rows))
                 +++ " rows") ;;;
  do_put_object env
    (mk_put S3_BUCKET s3_key (utf8_encode (csv_text rt header rows)) "text/csv") ;;;
  logger_info ("Successfully wrote s3://" +++ S3_BUCKET +++ "/" +++ s3_key).

(** ** Entry point *)

Definition movie_header : list string :=
  [ "id"; "title"; "release_date"; "vote_average"; "vote_count"; "popularity";
    "original_language"; "genre_ids"; "adult"; "video" ].

Definition genres_header : list string := [ "id"; "name" ].

(** The element expression of the genres comprehension. *)
Definition genre_to_row (g : pyval) : outcome (list pyval) :=
  id <~ py_get g "id" (PyStr EmptyString) ;;
  name <~ py_get g "name" (PyStr EmptyString) ;;
  Return [ id; name ].

(** A list comprehension [[f(x) for x in l]]. *)
Fixpoint comprehension {A B : Type} (f : A -> outcome B) (l : list A)
  : outcome (list B) :=
  match l with
  | [] => Return []
  | x :: rest =>
      y <~ f x ;;
      ys <~ comprehension f rest ;;
      Return (y :: ys)
  end.

Definition lambda_handler (rt : Runtime) (env : Env) (fuel : nat)
  (event context : pyval) : M pyval :=
  logger_info "TMDB Lambda execution started" ;;;
  top_rated_movies <- fetch_all_pages rt env fuel "/movie/top_rated"
                        (Some [("language", PyStr "en-US")]) None ;;
  upcoming_movies <- fetch_all_pages rt env fuel "/movie/upcoming"
                       (Some [("language", PyStr "en-US")]) None ;;
  genres <- fetch_genres rt env ;;
  top_rated_rows <- lift (comprehension (movie_to_row rt) top_rated_movies) ;;
  upcoming_rows <- lift (comprehension (movie_to_row rt) upcoming_movies) ;;
  genre_items <- lift (py_iter genres) ;;
  genres_rows <- lift (comprehension genre_to_row genre_items) ;;
  write_csv_to_s3 rt env TOP_RATED_KEY (map PyStr movie_header) top_rated_rows ;;;
  write_csv_to_s3 rt env UPCOMING_KEY (map PyStr movie_header) upcoming_rows ;;;
  write_csv_to_s3 rt env GENRES_KEY (map PyStr genres_header) genres_rows ;;;
  logger_info "TMDB Lambda execution completed successfully" ;;;
  ret (PyDict
         [ ("statusCode", PyInt 200);
           ("body",
            PyStr (json_dumps rt
                     (PyDict
                        [ ("message",
                           PyStr "TMDB data fetched and stored in S3 successfully");
                          ("bucket", PyStr S3_BUCKET);
                          ("keys", PyList [ PyStr TOP_RATED_KEY;
                                            PyStr UPCOMING_KEY;
                                            PyStr GENRES_KEY ]);
                          ("top_rated_count",
                           PyInt (Z.of_nat (List.length top_rated_rows)));
                          ("upcoming_count",
                           PyInt (Z.of_nat (List.length upcoming_rows)));
                          ("genres_count",
                           PyInt (Z.of_nat (List.length genres_rows))) ]))) ]).

(** ** A reader for the same dialect

    The module only writes CSV.  To state the round trip, this is the
    standard reader for comma-delimited text with double-quote quoting,
    doubled quotes inside quoted fields and CR, LF or CRLF record ends (the
    state machine of [csv.reader] with the excel dialect, run over the
    whole text).  It returns every field as a string. *)

Inductive reader_state : Type :=
| START_RECORD
| START_FIELD
| IN_FIELD
| IN_QUOTED_FIELD
| QUOTE_IN_QUOTED_FIELD
| EAT_CRNL.

Record reader : Type := mk_reader {
  rd_state : reader_state;
  rd_field : string;
  rd_row : list string;
  rd_rows : list (list string)
}.

Definition add_char (r : reader) (c : ascii) (s : reader_state) : reader :=
  mk_reader s (rd_field r +++ String c EmptyString) (rd_row r) (rd_rows r).

Definition save_field (r : reader) (s : reader_state) : reader :=
  mk_reader s EmptyString (rd_row r ++ [rd_field r]) (rd_rows r).

Definition end_record (r : reader) (s : reader_state) : reader :=
  mk_reader s EmptyString [] (rd_rows r ++ [rd_row r]).

Definition is_quote (c : ascii) : bool := Ascii.eqb c (ascii_of_nat 34).

Definition after_newline (c : ascii) : reader_state :=
  if Ascii.eqb c CR then EAT_CRNL else START_RECORD.

Definition step_start_field (r : reader) (c : ascii) : reader :=
  if (Ascii.eqb c CR || Ascii.eqb c LF)%bool
  then end_record (save_field r START_FIELD) (after_newline c)
  else if is_quote c then mk_reader IN_QUOTED_FIELD (rd_field r) (rd_row r) (rd_rows r)
  else if Ascii.eqb c "," then save_field r START_FIELD
  else add_char r c IN_FIELD.

Definition step_start_record (r : reader) (c : ascii) : reader :=
  if (Ascii.eqb c CR || Ascii.eqb c LF)%bool
  then end_record r (after_newline c)
  else step_start_field r c.

Definition reader_step (r : reader) (c : ascii) : reader :=
  match rd_state r with
  | START_RECORD => step_start_record r c
  | START_FIELD => step_start_field r c
  | IN_FIELD =>
      if (Ascii.eqb c CR || Ascii.eqb c LF)%bool
      then end_record (save_field r START_FIELD) (after_newline c)
      else if Ascii.eqb c "," then save_field r START_FIELD
      else add_char r c IN_FIELD
  | IN_QUOTED_FIELD =>
      if is_quote c
      then mk_reader QUOTE_IN_QUOTED_FIELD (rd_field r) (rd_row r) (rd_rows r)
      else add_char r c IN_QUOTED_FIELD
  | QUOTE_IN_QUOTED_FIELD =>
      if is_quote c then add_char r c IN_QUOTED_FIELD
      else if Ascii.eqb c "," then save_field r START_FIELD
      else if (Ascii.eqb c CR || Ascii.eqb c LF)%bool
      then end_record (save_field r START_FIELD) (after_newline c)
      else add_char r c IN_FIELD
  | EAT_CRNL =>
      if Ascii.eqb c LF
      then mk_reader START_RECORD (rd_field r) (rd_row r) (rd_rows r)
      else step_start_record r c
  end.

Fixpoint reader_run (r : reader) (s : string) : reader :=
  match s with
  | EmptyString => r
  | String c rest => reader_run (reader_step r c) rest
  end.

Definition csv_read (text : string) : list (list string) :=
  let r := reader_run (mk_reader START_RECORD EmptyString [] []) text in
  match rd_state r with
  | START_RECORD | EAT_CRNL => rd_rows r
  | _ => rd_rows r ++ [rd_row r ++ [rd_field r]]
  end.

(** ** Vocabulary of the statements *)

(** The request the pager sends for page [p]. *)
Definition page_request (rt : Runtime) (env : Env) (endpoint : string)
  (extra_params : option dict) (p : Z) : Request :=
  build_request rt env endpoint
    (dict_set (default_dict extra_params) "page" (PyInt p)).

(** The page numbers [1; 2; ...; n]. *)
Definition pages_upto (n : Z) : list Z := map Z.of_nat (seq 1 (Z.to_nat n)).

(** Every request for page [p] of the endpoint is answered with a 2xx
    response whose body decodes to an object with [total_pages = T] and
    [results = results]. *)
Definition answers_page (rt : Runtime) (env : Env) (endpoint : string)
  (extra_params : option dict) (T : Z) (results : list pyval) (p : Z) : Prop :=
  forall n : nat,
  exists (status : Z) (body : string) (d : dict),
    urlopen env n (page_request rt env endpoint extra_params p)
      = inr (status, body)
    /\ 200 <= status < 300
    /\ json_loads rt body = Return (PyDict d)
    /\ dict_get d "total_pages" = Some (PyInt T)
    /\ dict_get d "results" = Some (PyList results).

(** The requests an invocation has added to the trace of [st]. *)
Definition new_requests (st st' : state) : list Request :=
  skipn (List.length (st_net st)) (st_net st').

(** The state after the client has logged the URL and handed [request] to
    [urlopen]. *)
Definition after_request (st : state) (request : Request) : state :=
  mk_state (st_net st ++ [request])
    (st_log st ++ [("INFO", "Requesting TMDB URL: " +++ req_url request)])
    (st_s3 st) (st_calls st ++ [Urlopen request]).

Definition add_log (st : state) (level msg : string) : state :=
  mk_state (st_net st) (st_log st ++ [(level, msg)]) (st_s3 st) (st_calls st).

(** The number of pages fetched with a caller limit [M] when the endpoint
    reports more pages than the limit. *)
Definition limited_page_count (M : Z) : Z := Z.min (Z.max M 1) 500.

(** [int], [bool] and [float] values: what [total_pages] can be compared
    with an int. *)
Definition is_number (v : pyval) : Prop :=
  match v with
  | PyInt _ | PyBool _ | PyFloat _ => True
  | _ => False
  end.

(** [d.get(k, "")] on a dict. *)
Definition field_or_empty (d : dict) (k : string) : pyval :=
  match dict_get d k with
  | Some v => v
  | None => PyStr EmptyString
  end.

(** The text of the [genre_ids] column. *)
Definition genre_ids_text (rt : Runtime) (d : dict) : string :=
  match dict_get d "genre_ids" with
  | None => EmptyString
  | Some (PyList l) => join "," (map (py_str rt) l)
  | Some PyNone => EmptyString
  | Some v => py_str rt v
  end.

(** The value of a movie table cell, by column name. *)
Definition movie_cell (rt : Runtime) (d : dict) (column : string) : pyval :=
  if String.eqb column "genre_ids" then PyStr (genre_ids_text rt d)
  else if (String.eqb column "adult" || String.eqb column "video")%bool
       then PyStr (py_str rt (field_or_empty d column))
       else field_or_empty d column.


(** The page after which the pager stops when every response reports
    [total_pages = T]. *)
Definition stop_page (max_pages : option Z) (T : Z) : Z :=
  let total := Z.min (Z.max T 1) 500 in
  match max_pages with
  | None => total
  | Some M => Z.min (Z.max M 1) total
  end.

(** The page numbers [page; page + 1; ...], [count] of them. *)
Definition pages_from (page : Z) (count : nat) : list Z :=
  map (fun i => page + Z.of_nat i) (seq 0 count).

(** [body] is the body of a 2xx response the network of [env] gives to
    [request]: a response that the client receives and decodes. *)
Definition delivered (env : Env) (request : Request) (body : string) : Prop :=
  exists (n : nat) (status : Z),
    urlopen env n request = inr (status, body) /\ 200 <= status < 300.

(** None of the 2xx responses to the requests in [P] decodes to an object
    that reports a NaN [total_pages]. *)
Definition no_nan_response (rt : Runtime) (env : Env) (P : Request -> Prop)
  : Prop :=
  forall (request : Request) (body : string) (d : dict),
    P request ->
    delivered env request body ->
    json_loads rt body = Return (PyDict d) ->
    dict_get d "total_pages" <> Some (PyFloat FNaN).

(** The requests of the pager for an endpoint. *)
Definition is_page_request (rt : Runtime) (env : Env) (endpoint : string)
  (extra_params : option dict) (request : Request) : Prop :=
  exists p : Z, request = page_request rt env endpoint extra_params p.

(** A computation that leaves the object store alone, hands to [urlopen]
    only requests that satisfy [P] and returns only values that satisfy
    [Q]. *)
Definition quiet {A : Type} (P : Request -> Prop) (Q : A -> Prop) (m : M A)
  : Prop :=
  forall st : state,
  exists l : list Request,
    st_net (snd (m st)) = st_net st ++ l
    /\ Forall P l
    /\ st_s3 (snd (m st)) = st_s3 st
    /\ (forall a, fst (m st) = Return a -> Q a).

Definition any {A : Type} (_ : A) : Prop := True.


(** The record [csv.writer] appends for the field texts [fields]. *)
Definition csv_record (fields : list string) : string :=
  let record := join "," (map csv_field fields) in
  match fields with
  | [] => CRLF
  | _ => if str_is_empty record then dquote +++ dquote +++ CRLF
         else record +++ CRLF
  end.

(** The text of a sequence of records. *)
Definition records_text (records : list (list string)) : string :=
  fold_right (fun fields acc => csv_record fields +++ acc) EmptyString records.

(** The UTF-8 bytes of one character, as a string. *)
Definition utf8_char (c : ascii) : string :=
  fold_right (fun b acc => String (ascii_of_nat b) acc) EmptyString
    (utf8_bytes c).

(** The reader is about to read the first character of a field. *)
Definition at_field_start (s : reader_state) : Prop :=
  s = START_RECORD \/ s = START_FIELD.

(** The reader after the text of one field, read from the start of a field. *)
Definition after_field (st : reader_state) (s : string) (row : list string)
  (rows : list (list string)) : reader :=
  if csv_needs_quote s then mk_reader QUOTE_IN_QUOTED_FIELD s row rows
  else if str_is_empty s then mk_reader st EmptyString row rows
  else mk_reader IN_FIELD s row rows.


(** The objects an invocation has added to the store of [st]. *)
Definition new_objects (st st' : state) : list S3Put :=
  skipn (List.length (st_s3 st)) (st_s3 st').

(** The log records an invocation has added to the log of [st]. *)
Definition new_log (st st' : state) : list (string * string) :=
  skipn (List.length (st_log st)) (st_log st').

Definition is_return {A : Type} (o : outcome A) : Prop :=
  exists a : A, o = Return a.

(** The calls an invocation has added to the trace of [st]. *)
Definition new_calls (st st' : state) : list call :=
  skipn (List.length (st_calls st)) (st_calls st').

(** [st'] is [st] after some calls of [urlopen] and no other call to the
    outside: the store is as it was. *)
Definition only_asked (st st' : state) : Prop :=
  exists l : list Request,
    st_net st' = st_net st ++ l
    /\ st_calls st' = st_calls st ++ map Urlopen l
    /\ st_s3 st' = st_s3 st.

(** A computation whose only calls to the outside are calls of [urlopen]. *)
Definition asks {A : Type} (m : M A) : Prop :=
  forall st : state, only_asked st (snd (m st)).

(** An invocation started in [st] has fetched the three datasets: the
    results [top] and [up] of the two movie endpoints and the [genres] of
    the genre list, one fetch after the other, ending in [st3]. *)
Definition fetched (rt : Runtime) (env : Env) (fuel : nat) (st : state)
  (top up : list pyval) (genres : pyval) (st3 : state) : Prop :=
  exists st1 st2 : state,
    fetch_all_pages rt env fuel "/movie/top_rated"
      (Some [("language", PyStr "en-US")]) None
      (add_log st "INFO" "TMDB Lambda execution started")
    = (Return top, st1)
    /\ fetch_all_pages rt env fuel "/movie/upcoming"
         (Some [("language", PyStr "en-US")]) None st1
       = (Return up, st2)
    /\ fetch_genres rt env st2 = (Return genres, st3).



(** The object the sink hands to the store for a table. *)
Definition table_object (rt : Runtime) (key : string) (header : list string)
  (rows : list (list pyval)) : S3Put :=
  mk_put S3_BUCKET key (utf8_encode (csv_text rt (map PyStr header) rows))
    "text/csv".


(** What the store keeps of [objs], offered one after the other as its
    uploads number [n], [n + 1], ...: the objects before the first one it
    rejects, and the exception of that rejection. *)
Fixpoint store_accepts (env : Env) (n : nat) (objs : list S3Put)
  : list S3Put * option exn :=
  match objs with
  | [] => ([], None)
  | obj :: rest =>
      match put_object env n obj with
      | Some e => ([], Some e)
      | None =>
          let kept := store_accepts env (S n) rest in
          (obj :: fst kept, snd kept)
      end
  end.

(** A request as the client builds it: a GET under the base URL with the
    bearer token of the environment, sent only when there is a token. *)
Definition authenticated (env : Env) (request : Request) : Prop :=
  token_missing env = false
  /\ req_method request = "GET"
  /\ req_headers request
     = [ ("Authorization", "Bearer " +++ token_text env);
         ("Accept", "application/json") ]
  /\ exists rest : string, req_url request = TMDB_BASE_URL +++ rest.

(** A computation all of whose requests satisfy [P]. *)
Definition sends {A : Type} (P : Request -> Prop) (m : M A) : Prop :=
  forall st : state,
  exists l : list Request,
    st_net (snd (m st)) = st_net st ++ l /\ Forall P l.






(** The number of data rows in the body of an uploaded object. *)
Definition data_rows (obj : S3Put) : Z :=
  Z.of_nat (List.length (csv_read (put_body obj))) - 1.

(** ** Concrete worlds used in the examples *)

Definition JSONDecodeError (msg : string) : exn := mk_exn "JSONDecodeError" msg.

Definition quoted (s : string) : string := dquote +++ s +++ dquote.

Definition body_page1 : string :=
  "{" +++ quoted "page" +++ ": 1, " +++ quoted "results" +++ ": [{"
      +++ quoted "id" +++ ": 11}], " +++ quoted "total_pages" +++ ": 2}".

Definition body_page2 : string :=
  "{" +++ quoted "page" +++ ": 2, " +++ quoted "results" +++ ": [{"
      +++ quoted "id" +++ ": 12}, {" +++ quoted "id" +++ ": 13}], "
      +++ quoted "total_pages" +++ ": 2}".

Definition body_nan : string :=
  "{" +++ quoted "results" +++ ": [], " +++ quoted "total_pages" +++ ": NaN}".

Definition body_genres : string :=
  "{" +++ quoted "genres" +++ ": [{" +++ quoted "id" +++ ": 28, "
      +++ quoted "name" +++ ": " +++ quoted "Action" +++ "}]}".

Definition body_upcoming : string :=
  "{" +++ quoted "page" +++ ": 1, " +++ quoted "results" +++ ": [{"
      +++ quoted "id" +++ ": 21, " +++ quoted "title" +++ ": "
      +++ quoted "Soon, or later" +++ ", " +++ quoted "genre_ids"
      +++ ": [28, 12]}], " +++ quoted "total_pages" +++ ": 1}".

Definition body_many : string :=
  "{" +++ quoted "results" +++ ": [], " +++ quoted "total_pages" +++ ": 502}".

(** [json.loads] on the bodies above. *)
Definition demo_json_loads (body : string) : outcome pyval :=
  if String.eqb body body_page1 then
    Return (PyDict [ ("page", PyInt 1);
                     ("results", PyList [ PyDict [("id", PyInt 11)] ]);
                     ("total_pages", PyInt 2) ])
  else if String.eqb body body_page2 then
    Return (PyDict [ ("page", PyInt 2);
                     ("results", PyList [ PyDict [("id", PyInt 12)];
                                          PyDict [("id", PyInt 13)] ]);
                     ("total_pages", PyInt 2) ])
  else if String.eqb body body_nan then
    Return (PyDict [ ("results", PyList []);
                     ("total_pages", PyFloat FNaN) ])
  else if String.eqb body body_upcoming then
    Return (PyDict [ ("page", PyInt 1);
                     ("results",
                      PyList [ PyDict [ ("id", PyInt 21);
                                        ("title", PyStr "Soon, or later");
                                        ("genre_ids",
                                         PyList [PyInt 28; PyInt 12]) ] ]);
                     ("total_pages", PyInt 1) ])
  else if String.eqb body body_many then
    Return (PyDict [ ("results", PyList []); ("total_pages", PyInt 502) ])
  else if String.eqb body body_genres then
    Return (PyDict [ ("genres",
                      PyList [ PyDict [ ("id", PyInt 28);
                                        ("name", PyStr "Action") ] ]) ])
  else Raise (JSONDecodeError "Expecting value: line 1 column 1 (char 0)").

Definition demo_float_repr (f : pyfloat) : string :=
  match f with
  | FNaN => "nan"
  | FInf negative => if negative then "-inf" else "inf"
  | FFin m e => int_str m +++ "*2**" +++ int_str e
  end.

Definition demo_rt : Runtime :=
  mk_runtime demo_float_repr (fun s => "'" +++ s +++ "'") demo_json_loads
    (fun v => py_repr (mk_runtime demo_float_repr quoted demo_json_loads
                         (fun _ => EmptyString)) v).

(** A server whose top-rated endpoint has two pages (one record, then
    two), whose upcoming endpoint has one page and which knows one genre. *)
Definition two_page_env : Env :=
  mk_env (Some "secret")
    (fun _ request =>
       if String.eqb (req_url request)
            "https://api.themoviedb.org/3/movie/top_rated?language=en-US&page=1"
       then inr (200, body_page1)
       else if String.eqb (req_url request)
                 "https://api.themoviedb.org/3/movie/top_rated?language=en-US&page=2"
       then inr (200, body_page2)
       else if String.eqb (req_url request)
                 "https://api.themoviedb.org/3/movie/upcoming?language=en-US&page=1"
       then inr (200, body_upcoming)
       else if String.eqb (req_url request)
                 "https://api.themoviedb.org/3/genre/movie/list?language=en-US"
       then inr (200, body_genres)
       else inr (404, "{}"))
    (fun _ _ => None).

(** An endpoint that reports [total_pages: NaN] on every page. *)
Definition nan_env : Env :=
  mk_env (Some "secret") (fun _ _ => inr (200, body_nan)) (fun _ _ => None).

(** A server that answers every request with [status] and [body]. *)
Definition status_env (status : Z) (body : string) : Env :=
  mk_env (Some "secret") (fun _ _ => inr (status, body)) (fun _ _ => None).

(** No token in the environment. *)
Definition no_token_env : Env :=
  mk_env None (fun _ _ => inr (200, body_page1)) (fun _ _ => None).

Definition en_US : option dict := Some [("language", PyStr "en-US")].

Definition URLError (msg : string) : exn := mk_exn "URLError" msg.

(** A network that cannot be reached. *)
Definition unreachable_env : Env :=
  mk_env (Some "secret")
    (fun _ _ => inl (URLError "<urlopen error [Errno 111] Connection refused>"))
    (fun _ _ => None).


Definition AccessDenied : exn :=
  mk_exn "ClientError"
    "An error occurred (AccessDenied) when calling the PutObject operation".

(** [two_page_env] with a store that rejects the second upload. *)
Definition second_put_fails_env : Env :=
  mk_env (TMDB_API_TOKEN two_page_env) (urlopen two_page_env)
    (fun n _ => if Nat.eqb n 1 then Some AccessDenied else None).

(** A store that rejects every upload. *)
Definition read_only_env : Env :=
  mk_env (Some "secret") (fun _ _ => inr (200, body_page1))
    (fun _ _ => Some AccessDenied).

(** A decoder for two more bodies: a JSON array, and an object with
    neither [results] nor [total_pages]. *)
Definition edge_rt : Runtime :=
  mk_runtime demo_float_repr (fun s => "'" +++ s +++ "'")
    (fun body =>
       if String.eqb body "[1, 2]" then Return (PyList [PyInt 1; PyInt 2])
       else if String.eqb body "{}" then Return (PyDict [])
       else Raise (JSONDecodeError "Expecting value: line 1 column 1 (char 0)"))
    (fun _ => "{}").

(** * Properties *)

(** ** Row mapper *)

(** C4: the row of the object
    [{"id": 5, "title": "X", "genre_ids": [1,2,3], "adult": false,
      "video": true}] is
    [[5, "X", "", "", "", "", "", "1,2,3", "False", "True"]]. *)
Theorem movie_to_row_example (rt : Runtime) :
  movie_to_row rt
    (PyDict [ ("id", PyInt 5); ("title", PyStr "X");
              ("genre_ids", PyList [PyInt 1; PyInt 2; PyInt 3]);
              ("adult", PyBool false); ("video", PyBool true) ])
  = Return [ PyInt 5; PyStr "X"; PyStr EmptyString; PyStr EmptyString;
             PyStr EmptyString; PyStr EmptyString; PyStr EmptyString;
             PyStr "1,2,3"; PyStr "False"; PyStr "True" ].
Proof. reflexivity. Qed.

Lemma movie_to_row_dict (rt : Runtime) (d : dict) :
  movie_to_row rt (PyDict d) = Return (map (movie_cell rt d) movie_header).
Proof.
  unfold movie_to_row, py_get, bind_outcome, movie_header, map, movie_cell,
    field_or_empty, genre_ids_text.
  cbn [String.eqb Ascii.eqb Bool.eqb orb].
  destruct (dict_get d "genre_ids") as [[ | | | | | | ]|]; reflexivity.
Qed.

(** C5: on every JSON object [movie_to_row] returns a row of ten cells; the
    cell of a whitelisted field that is absent is the empty string, and the
    [genre_ids] cell is the empty string when the field is absent, the empty
    list or null. *)
Theorem movie_to_row_total (rt : Runtime) (d : dict) :
  exists row : list pyval,
    movie_to_row rt (PyDict d) = Return row
    /\ List.length row = 10%nat
    /\ (forall (i : nat) (column : string),
           nth_error movie_header i = Some column ->
           dict_get d column = None ->
           nth_error row i = Some (PyStr EmptyString))
    /\ (dict_get d "genre_ids" = None
        \/ dict_get d "genre_ids" = Some (PyList [])
        \/ dict_get d "genre_ids" = Some PyNone ->
        nth_error row 7 = Some (PyStr EmptyString)).
Proof.
  exists (map (movie_cell rt d) movie_header).
  split; [apply movie_to_row_dict|].
  split; [reflexivity|].
  split.
  - intros i column Hi Habs.
    rewrite nth_error_map, Hi. cbn [option_map]. f_equal.
    do 10 (destruct i as [|i];
           [ injection Hi as <-; unfold movie_cell, field_or_empty, genre_ids_text;
             cbn [String.eqb Ascii.eqb Bool.eqb orb]; rewrite Habs; reflexivity | ]).
    destruct i; discriminate Hi.
  - intros H. cbn [movie_header map nth_error]. f_equal.
    unfold movie_cell, genre_ids_text. cbn [String.eqb Ascii.eqb Bool.eqb].
    destruct H as [-> | [-> | ->]]; reflexivity.
Qed.

Lemma movie_to_row_total_witness :
  exists row : list pyval,
    movie_to_row demo_rt (PyDict [("genre_ids", PyNone)]) = Return row
    /\ nth_error row 0 = Some (PyStr EmptyString)
    /\ nth_error row 7 = Some (PyStr EmptyString).
Proof.
  destruct (movie_to_row_total demo_rt [("genre_ids", PyNone)])
    as (row & Hrow & _ & Habsent & Hgenres).
  exists row. split; [exact Hrow|]. split.
  - apply (Habsent 0%nat "id"); reflexivity.
  - apply Hgenres. right. right. reflexivity.
Defined.

(** ** Sink *)

Lemma write_csv_to_s3_accepted (rt : Runtime) (env : Env) (key : string)
  (header : list pyval) (rows : list (list pyval)) (st : state) :
  let obj := mk_put S3_BUCKET key (utf8_encode (csv_text rt header rows))
               "text/csv" in
  put_object env (List.length (st_s3 st)) obj = None ->
  exists st',
    write_csv_to_s3 rt env key header rows st = (Return tt, st')
    /\ st_s3 st' = st_s3 st ++ [obj]
    /\ st_net st' = st_net st.
Proof.
  intros obj Hput.
  unfold write_csv_to_s3, bind, logger_info, log, do_put_object.
  cbn [st_s3 st_net st_log]. fold obj. rewrite Hput.
  eexists. split; [reflexivity|]. split; reflexivity.
Qed.

(** The sink uploads at most the one object it was asked to write. *)
Lemma write_csv_to_s3_effect (rt : Runtime) (env : Env) (key : string)
  (header : list pyval) (rows : list (list pyval)) (st : state) :
  let obj := mk_put S3_BUCKET key (utf8_encode (csv_text rt header rows))
               "text/csv" in
  let r := write_csv_to_s3 rt env key header rows st in
  (fst r = Return tt /\ st_s3 (snd r) = st_s3 st ++ [obj])
  \/ (fst r <> Return tt /\ st_s3 (snd r) = st_s3 st).
Proof.
  intros obj r. subst r.
  unfold write_csv_to_s3, bind, logger_info, log, do_put_object.
  cbn [st_s3 st_net st_log]. fold obj.
  destruct (put_object env (List.length (st_s3 st)) obj).
  - right. split; [discriminate|reflexivity].
  - left. split; reflexivity.
Qed.

(** ** CSV: what is written reads back *)

Lemma append_assoc (a b c : string) : (a +++ b) +++ c = a +++ b +++ c.
Proof. induction a as [|x a IH]; cbn; [reflexivity|rewrite IH; reflexivity]. Qed.

Lemma append_nil_r (a : string) : a +++ EmptyString = a.
Proof. induction a as [|x a IH]; cbn; [reflexivity|rewrite IH; reflexivity]. Qed.

Lemma reader_run_app (r : reader) (a b : string) :
  reader_run r (a +++ b) = reader_run (reader_run r a) b.
Proof.
  revert r. induction a as [|x a IH]; intros r; cbn; [reflexivity|apply IH].
Qed.

Lemma csv_writerow_record (rt : Runtime) (row : list pyval) :
  csv_writerow rt row = csv_record (map (csv_field_text rt) row).
Proof.
  unfold csv_writerow, csv_record. rewrite map_map.
  destruct row; reflexivity.
Qed.

Lemma special_cases (c : ascii) :
  csv_special c = false ->
  Ascii.eqb c "," = false /\ is_quote c = false
  /\ Ascii.eqb c CR = false /\ Ascii.eqb c LF = false.
Proof.
  unfold csv_special, is_quote. intros H.
  repeat (apply orb_false_iff in H; destruct H as [H ?]). auto.
Qed.

Lemma step_plain (st : reader_state) (f : string) (row : list string)
  (rows : list (list string)) (c : ascii) :
  csv_special c = false ->
  st = START_RECORD \/ st = START_FIELD \/ st = IN_FIELD ->
  reader_step (mk_reader st f row rows) c
  = mk_reader IN_FIELD (f +++ String c EmptyString) row rows.
Proof.
  intros Hc Hst. destruct (special_cases c Hc) as (Hcomma & Hq & HCR & HLF).
  destruct Hst as [-> | [-> | ->]];
    unfold reader_step, step_start_record, step_start_field, add_char;
    cbn [rd_state rd_field rd_row rd_rows];
    rewrite ?HCR, ?HLF, ?Hq, ?Hcomma; reflexivity.
Qed.

Lemma step_in_quoted (f : string) (row : list string)
  (rows : list (list string)) (c : ascii) :
  is_quote c = false ->
  reader_step (mk_reader IN_QUOTED_FIELD f row rows) c
  = mk_reader IN_QUOTED_FIELD (f +++ String c EmptyString) row rows.
Proof.
  intros Hq. unfold reader_step, add_char. cbn [rd_state rd_field rd_row rd_rows].
  rewrite Hq. reflexivity.
Qed.

Lemma run_plain (s : string) :
  csv_needs_quote s = false ->
  forall (st : reader_state) (f : string) (row : list string)
         (rows : list (list string)),
    st = START_RECORD \/ st = START_FIELD \/ st = IN_FIELD ->
    s <> EmptyString ->
    reader_run (mk_reader st f row rows) s
    = mk_reader IN_FIELD (f +++ s) row rows.
Proof.
  induction s as [|c s IH]; intros Hs st f row rows Hst Hne; [congruence|].
  cbn [csv_needs_quote] in Hs. apply orb_false_iff in Hs. destruct Hs as [Hc Hs].
  cbn [reader_run]. rewrite (step_plain st f row rows c Hc Hst).
  destruct s as [|c' s'].
  - reflexivity.
  - rewrite (IH Hs IN_FIELD); [|auto|discriminate].
    rewrite append_assoc. reflexivity.
Qed.

Lemma run_quoted_body (s : string) (f : string) (row : list string)
  (rows : list (list string)) :
  reader_run (mk_reader IN_QUOTED_FIELD f row rows) (csv_double_quotes s)
  = mk_reader IN_QUOTED_FIELD (f +++ s) row rows.
Proof.
  revert f. induction s as [|c s IH]; intros f.
  - cbn. rewrite append_nil_r. reflexivity.
  - cbn [csv_double_quotes]. fold (is_quote c).
    destruct (is_quote c) eqn:Hq.
    + cbn [reader_run].
      assert (H1 : reader_step (mk_reader IN_QUOTED_FIELD f row rows) c
                   = mk_reader QUOTE_IN_QUOTED_FIELD f row rows)
        by (unfold reader_step; cbn [rd_state rd_field rd_row rd_rows];
            rewrite Hq; reflexivity).
      assert (H2 : reader_step (mk_reader QUOTE_IN_QUOTED_FIELD f row rows) c
                   = mk_reader IN_QUOTED_FIELD (f +++ String c EmptyString) row rows)
        by (unfold reader_step, add_char; cbn [rd_state rd_field rd_row rd_rows];
            rewrite Hq; reflexivity).
      rewrite H1, H2, IH, append_assoc. reflexivity.
    + cbn [reader_run]. rewrite (step_in_quoted f row rows c Hq), IH, append_assoc.
      reflexivity.
Qed.

Lemma run_field (st : reader_state) (s : string) (row : list string)
  (rows : list (list string)) :
  at_field_start st ->
  reader_run (mk_reader st EmptyString row rows) (csv_field s)
  = after_field st s row rows.
Proof.
  intros Hst. unfold csv_field, after_field.
  destruct (csv_needs_quote s) eqn:Hq.
  - unfold dquote. cbn [String.append reader_run].
    assert (H1 : reader_step (mk_reader st EmptyString row rows) (ascii_of_nat 34)
                 = mk_reader IN_QUOTED_FIELD EmptyString row rows)
      by (destruct Hst as [-> | ->]; reflexivity).
    rewrite H1, reader_run_app, run_quoted_body. reflexivity.
  - destruct s as [|c s]; [reflexivity|].
    cbn [str_is_empty]. rewrite (run_plain _ Hq st); [reflexivity| |discriminate].
    destruct Hst; auto.
Qed.

Lemma after_field_comma (st : reader_state) (s : string) (row : list string)
  (rows : list (list string)) :
  at_field_start st ->
  reader_step (after_field st s row rows) ","
  = mk_reader START_FIELD EmptyString (row ++ [s]) rows.
Proof.
  intros Hst. unfold after_field.
  destruct (csv_needs_quote s); [reflexivity|].
  destruct s as [|c s]; cbn [str_is_empty]; [|reflexivity].
  destruct Hst as [-> | ->]; reflexivity.
Qed.

Lemma after_field_newline (st : reader_state) (s : string) (row : list string)
  (rows : list (list string)) :
  at_field_start st ->
  (st = START_RECORD -> csv_field s <> EmptyString) ->
  reader_run (after_field st s row rows) CRLF
  = mk_reader START_RECORD EmptyString [] (rows ++ [row ++ [s]]).
Proof.
  intros Hst Hne. unfold after_field, csv_field in *.
  destruct (csv_needs_quote s); [reflexivity|].
  destruct s as [|c s]; cbn [str_is_empty]; [|reflexivity].
  destruct Hst as [-> | ->]; [|reflexivity].
  exfalso. apply Hne; reflexivity.
Qed.

Lemma csv_field_empty (s : string) :
  csv_field s = EmptyString -> s = EmptyString.
Proof.
  unfold csv_field. destruct (csv_needs_quote s); [discriminate|auto].
Qed.

Lemma join_cons2 (sep x y : string) (l : list string) :
  join sep (x :: y :: l) = x +++ sep +++ join sep (y :: l).
Proof. reflexivity. Qed.

Lemma append_empty (a b : string) :
  a +++ b = EmptyString -> a = EmptyString /\ b = EmptyString.
Proof. destruct a; cbn; [auto|discriminate]. Qed.

(** The fields of one record, read from the start of a field. *)
Lemma run_fields (fs : list string) :
  forall (s : string) (st : reader_state) (row : list string)
         (rows : list (list string)),
    at_field_start st ->
    (st = START_RECORD -> join "," (map csv_field (s :: fs)) <> EmptyString) ->
    reader_run (mk_reader st EmptyString row rows)
      (join "," (map csv_field (s :: fs)) +++ CRLF)
    = mk_reader START_RECORD EmptyString [] (rows ++ [row ++ s :: fs]).
Proof.
  induction fs as [|s' fs IH]; intros s st row rows Hst Hne.
  - cbn [map join]. rewrite reader_run_app, (run_field st s row rows Hst).
    apply after_field_newline; assumption.
  - cbn [map]. rewrite join_cons2, !append_assoc, reader_run_app.
    rewrite (run_field st s row rows Hst).
    cbn [String.append reader_run].
    rewrite (after_field_comma st s row rows Hst).
    change (join "," (csv_field s' :: map csv_field fs))
      with (join "," (map csv_field (s' :: fs))).
    rewrite (IH s' START_FIELD (row ++ [s]) rows);
      [|right; reflexivity|discriminate].
    rewrite <- app_assoc. reflexivity.
Qed.

Lemma run_record (fields : list string) (rows : list (list string)) :
  reader_run (mk_reader START_RECORD EmptyString [] rows) (csv_record fields)
  = mk_reader START_RECORD EmptyString [] (rows ++ [fields]).
Proof.
  unfold csv_record. destruct fields as [|s fs]; [reflexivity|].
  destruct (str_is_empty (join "," (map csv_field (s :: fs)))) eqn:Hempty.
  - assert (Hjoin : join "," (map csv_field (s :: fs)) = EmptyString)
      by (destruct (join "," (map csv_field (s :: fs)));
          [reflexivity|discriminate Hempty]).
    destruct fs as [|s' fs].
    + cbn [map join] in Hjoin. apply csv_field_empty in Hjoin. subst s.
      reflexivity.
    + cbn [map] in Hjoin. rewrite join_cons2 in Hjoin.
      apply append_empty in Hjoin. destruct Hjoin as [_ Hjoin].
      discriminate Hjoin.
  - rewrite (run_fields fs s START_RECORD [] rows); [reflexivity|left; reflexivity|].
    intros _ Hjoin. rewrite Hjoin in Hempty. discriminate Hempty.
Qed.

Lemma run_records (records : list (list string)) :
  forall rows : list (list string),
    reader_run (mk_reader START_RECORD EmptyString [] rows)
      (records_text records)
    = mk_reader START_RECORD EmptyString [] (rows ++ records).
Proof.
  induction records as [|fields records IH]; intros rows.
  - cbn. rewrite app_nil_r. reflexivity.
  - cbn [records_text fold_right]. rewrite reader_run_app, run_record.
    fold (records_text records). rewrite IH, <- app_assoc. reflexivity.
Qed.

(** Whatever records are written, the reader returns them. *)
Theorem csv_read_records (records : list (list string)) :
  csv_read (records_text records) = records.
Proof.
  unfold csv_read. rewrite run_records. reflexivity.
Qed.

Lemma csv_text_records (rt : Runtime) (header : list pyval)
  (rows : list (list pyval)) :
  csv_text rt header rows
  = records_text (map (map (csv_field_text rt)) (header :: rows)).
Proof.
  unfold csv_text. cbn [map records_text fold_right].
  rewrite csv_writerow_record. f_equal.
  induction rows as [|row rows IH]; [reflexivity|].
  cbn [map fold_right]. rewrite csv_writerow_record, IH. reflexivity.
Qed.

Theorem csv_read_csv_text (rt : Runtime) (header : list pyval)
  (rows : list (list pyval)) :
  csv_read (csv_text rt header rows)
  = map (map (csv_field_text rt)) (header :: rows).
Proof. rewrite csv_text_records. apply csv_read_records. Qed.

Lemma utf8_encode_cons (c : ascii) (s : string) :
  utf8_encode (String c s) = utf8_char c +++ utf8_encode s.
Proof.
  cbn [utf8_encode]. unfold utf8_char, utf8_bytes.
  destruct (Nat.ltb (nat_of_ascii c) 128); reflexivity.
Qed.

Lemma utf8_encode_app (a b : string) :
  utf8_encode (a +++ b) = utf8_encode a +++ utf8_encode b.
Proof.
  induction a as [|c a IH]; [reflexivity|].
  cbn [String.append]. rewrite !utf8_encode_cons, IH, append_assoc.
  reflexivity.
Qed.

(** Encoding leaves the four special characters alone and produces none. *)
Lemma utf8_char_special (c : ascii) :
  (csv_special c = true -> utf8_char c = String c EmptyString)
  /\ (csv_special c = false -> csv_needs_quote (utf8_char c) = false)
  /\ (is_quote c = false -> csv_double_quotes (utf8_char c) = utf8_char c)
  /\ utf8_char c <> EmptyString.
Proof.
  destruct c as [[] [] [] [] [] [] [] []]; vm_compute;
    repeat split; intros; congruence.
Qed.

Lemma needs_quote_app (a b : string) :
  csv_needs_quote (a +++ b) = (csv_needs_quote a || csv_needs_quote b)%bool.
Proof.
  induction a as [|c a IH]; [reflexivity|].
  cbn [String.append csv_needs_quote]. rewrite IH, orb_assoc. reflexivity.
Qed.

Lemma double_quotes_app (a b : string) :
  csv_double_quotes (a +++ b) = csv_double_quotes a +++ csv_double_quotes b.
Proof.
  induction a as [|c a IH]; [reflexivity|].
  cbn [String.append csv_double_quotes]. rewrite IH.
  destruct (Ascii.eqb c (ascii_of_nat 34)); reflexivity.
Qed.

Lemma utf8_needs_quote (s : string) :
  csv_needs_quote (utf8_encode s) = csv_needs_quote s.
Proof.
  induction s as [|c s IH]; [reflexivity|].
  rewrite utf8_encode_cons, needs_quote_app, IH. cbn [csv_needs_quote].
  destruct (utf8_char_special c) as (Hspecial & Hplain & _).
  destruct (csv_special c) eqn:Hc.
  - rewrite (Hspecial eq_refl). cbn [csv_needs_quote]. rewrite Hc. reflexivity.
  - rewrite (Hplain eq_refl). reflexivity.
Qed.

Lemma utf8_double_quotes (s : string) :
  utf8_encode (csv_double_quotes s) = csv_double_quotes (utf8_encode s).
Proof.
  induction s as [|c s IH]; [reflexivity|].
  rewrite utf8_encode_cons, double_quotes_app. cbn [csv_double_quotes].
  destruct (utf8_char_special c) as (Hspecial & _ & Hkeep & _).
  fold (is_quote c). destruct (is_quote c) eqn:Hq.
  - assert (Hc : csv_special c = true).
    { unfold csv_special. fold (is_quote c). rewrite Hq.
      rewrite orb_true_r. reflexivity. }
    rewrite !utf8_encode_cons, IH, (Hspecial Hc).
    cbn [csv_double_quotes String.append]. fold (is_quote c). rewrite Hq.
    reflexivity.
  - rewrite utf8_encode_cons, IH, (Hkeep eq_refl). reflexivity.
Qed.

Lemma utf8_is_empty (s : string) :
  str_is_empty (utf8_encode s) = str_is_empty s.
Proof.
  destruct s as [|c s]; [reflexivity|].
  rewrite utf8_encode_cons. destruct (utf8_char_special c) as (_ & _ & _ & Hne).
  destruct (utf8_char c); [congruence|reflexivity].
Qed.

Lemma utf8_csv_field (s : string) :
  utf8_encode (csv_field s) = csv_field (utf8_encode s).
Proof.
  unfold csv_field. rewrite utf8_needs_quote.
  destruct (csv_needs_quote s); [|reflexivity].
  rewrite !utf8_encode_app, utf8_double_quotes. reflexivity.
Qed.

Lemma utf8_join_fields (l : list string) :
  utf8_encode (join "," (map csv_field l))
  = join "," (map csv_field (map utf8_encode l)).
Proof.
  induction l as [|x l IH]; [reflexivity|].
  destruct l as [|y l].
  - cbn [map join]. apply utf8_csv_field.
  - cbn [map] in *. rewrite !join_cons2, !utf8_encode_app, IH, utf8_csv_field.
    reflexivity.
Qed.

Lemma utf8_csv_record (fields : list string) :
  utf8_encode (csv_record fields) = csv_record (map utf8_encode fields).
Proof.
  unfold csv_record. destruct fields as [|s fs]; [reflexivity|].
  cbn [map]. change (csv_field (utf8_encode s) :: map csv_field (map utf8_encode fs))
    with (map csv_field (map utf8_encode (s :: fs))).
  change (csv_field s :: map csv_field fs) with (map csv_field (s :: fs)).
  rewrite <- utf8_join_fields, utf8_is_empty.
  destruct (str_is_empty (join "," (map csv_field (s :: fs)))).
  - reflexivity.
  - rewrite utf8_encode_app. reflexivity.
Qed.

Lemma utf8_records_text (records : list (list string)) :
  utf8_encode (records_text records)
  = records_text (map (map utf8_encode) records).
Proof.
  induction records as [|fields records IH]; [reflexivity|].
  cbn [records_text fold_right map].
  rewrite utf8_encode_app, utf8_csv_record. fold (records_text records).
  rewrite IH. reflexivity.
Qed.

(** What the sink uploads for a table reads back as the table: the header
    and every row, each cell as the UTF-8 bytes of its field text. *)
Theorem csv_read_uploaded (rt : Runtime) (header : list pyval)
  (rows : list (list pyval)) :
  csv_read (utf8_encode (csv_text rt header rows))
  = map (map (fun v => utf8_encode (csv_field_text rt v))) (header :: rows).
Proof.
  rewrite csv_text_records, utf8_records_text, csv_read_records.
  rewrite map_map. apply map_ext. intros row. apply map_map.
Qed.


(** C9: the table with header [["id","name"]] and rows
    [[[1,"Action"],[2,"Comedy"]]], written by the sink and read back by a
    standard reader, gives the header and the rows again, as strings. *)
Theorem csv_round_trip_genres (rt : Runtime) (env : Env) (key : string)
  (st : state) :
  let header := [ PyStr "id"; PyStr "name" ] in
  let rows := [ [ PyInt 1; PyStr "Action" ]; [ PyInt 2; PyStr "Comedy" ] ] in
  csv_read (utf8_encode (csv_text rt header rows))
    = [ [ "id"; "name" ]; [ "1"; "Action" ]; [ "2"; "Comedy" ] ]
  /\ (put_object env (List.length (st_s3 st))
        (mk_put S3_BUCKET key (utf8_encode (csv_text rt header rows)) "text/csv")
      = None ->
      exists obj,
        st_s3 (snd (write_csv_to_s3 rt env key header rows st))
          = st_s3 st ++ [obj]
        /\ put_key obj = key
        /\ csv_read (put_body obj)
           = [ [ "id"; "name" ]; [ "1"; "Action" ]; [ "2"; "Comedy" ] ]).
Proof.
  intros header rows. split; [reflexivity|].
  intros Hput.
  destruct (write_csv_to_s3_accepted rt env key header rows st Hput)
    as (st' & Hrun & Hs3 & _).
  rewrite Hrun. cbn [snd]. eexists. split; [exact Hs3|].
  split; reflexivity.
Qed.

Lemma csv_round_trip_genres_witness :
  exists obj,
    st_s3 (snd (write_csv_to_s3 demo_rt two_page_env GENRES_KEY
                  [ PyStr "id"; PyStr "name" ]
                  [ [ PyInt 1; PyStr "Action" ]; [ PyInt 2; PyStr "Comedy" ] ]
                  init_state))
      = [obj]
    /\ put_key obj = GENRES_KEY
    /\ csv_read (put_body obj)
       = [ [ "id"; "name" ]; [ "1"; "Action" ]; [ "2"; "Comedy" ] ].
Proof.
  exact (proj2 (csv_round_trip_genres demo_rt two_page_env GENRES_KEY init_state)
           eq_refl).
Defined.

(** ** API client *)

Lemma make_request_missing_token (rt : Runtime) (env : Env)
  (endpoint : string) (params : option dict) (st : state) :
  token_missing env = true ->
  _make_tmdb_request rt env endpoint params st
  = (Raise (RuntimeError "TMDB_API_TOKEN environment variable is required"),
     add_log st "ERROR" "TMDB_API_TOKEN environment variable is not set").
Proof.
  intros H. unfold _make_tmdb_request. rewrite H. reflexivity.
Qed.

Lemma status_2xx (status : Z) :
  200 <= status < 300 -> ((200 <=? status) && (status <? 300))%bool = true.
Proof. intros H. apply andb_true_iff. split; [apply Z.leb_le|apply Z.ltb_lt]; lia. Qed.


(** [urlopen] hands a response back to the client only when its status is
    2xx, so the status test of the client (lines 63-65) never fires. *)
Lemma do_urlopen_returns_2xx (env : Env) (request : Request) (st st' : state)
  (status : Z) (body : string) :
  do_urlopen env request st = (Return (status, body), st') ->
  200 <= status < 300
  /\ urlopen env (List.length (st_net st)) request = inr (status, body).
Proof.
  unfold do_urlopen.
  destruct (urlopen env (List.length (st_net st)) request)
    as [e | [status0 body0]]; [discriminate|].
  destruct ((200 <=? status0) && (status0 <? 300))%bool eqn:H2xx;
    [|discriminate].
  intros [= <- <- _]. apply andb_true_iff in H2xx. destruct H2xx as [H1 H2].
  apply Z.leb_le in H1. apply Z.ltb_lt in H2. split; [lia|reflexivity].
Qed.


Lemma make_request_ok (rt : Runtime) (env : Env) (endpoint : string)
  (params : option dict) (st : state) (status : Z) (body : string)
  (data : pyval) :
  let request := build_request rt env endpoint (default_dict params) in
  token_missing env = false ->
  urlopen env (List.length (st_net st)) request = inr (status, body) ->
  200 <= status < 300 ->
  json_loads rt body = Return data ->
  _make_tmdb_request rt env endpoint params st
  = (Return data, after_request st request).
Proof.
  intros request Htok Hopen Hstatus Hjson.
  unfold _make_tmdb_request. rewrite Htok. fold request.
  unfold bind, try_reraise, do_urlopen, logger_info, logger_error, log, raise,
    lift.
  cbn [st_net st_log st_s3]. rewrite Hopen, (status_2xx status Hstatus).
  cbn [fst snd].
  replace ((status <? 200) || (status >=? 300))%bool with false
    by (symmetry; apply orb_false_iff; lia).
  rewrite Hjson. reflexivity.
Qed.



(** ** Effects of the monadic building blocks *)

Section Quiet.
Context {A B : Type}.
Variable P : Request -> Prop.

Lemma quiet_ret (Q : A -> Prop) (a : A) : Q a -> quiet P Q (ret a).
Proof.
  intros Ha st. exists []. cbn. rewrite app_nil_r.
  repeat split; auto. intros a' [= <-]. exact Ha.
Qed.

Lemma quiet_raise (Q : A -> Prop) (e : exn) : quiet P Q (raise e).
Proof.
  intros st. exists []. cbn. rewrite app_nil_r.
  repeat split; auto. discriminate.
Qed.

Lemma quiet_out_of_fuel (Q : A -> Prop) : quiet P Q out_of_fuel.
Proof.
  intros st. exists []. cbn. rewrite app_nil_r.
  repeat split; auto. discriminate.
Qed.

Lemma quiet_lift (o : outcome A) : quiet P (fun a => o = Return a) (lift o).
Proof.
  intros st. exists []. cbn. rewrite app_nil_r.
  repeat split; auto.
Qed.

Lemma quiet_weaken (Q Q' : A -> Prop) (m : M A) :
  (forall a, Q a -> Q' a) -> quiet P Q m -> quiet P Q' m.
Proof.
  intros HQ Hm st. destruct (Hm st) as (l & Hnet & Hl & Hs3 & Hret).
  exists l. repeat split; auto.
Qed.

Lemma quiet_bind (Q : A -> Prop) (Q' : B -> Prop) (m : M A) (k : A -> M B) :
  quiet P Q m -> (forall a, Q a -> quiet P Q' (k a)) -> quiet P Q' (bind m k).
Proof.
  intros Hm Hk st. destruct (Hm st) as (l & Hnet & Hl & Hs3 & Hret).
  unfold bind. destruct (m st) as [[a | e | ] st1]; cbn [fst snd] in *.
  - destruct (Hk a (Hret a eq_refl) st1) as (l' & Hnet' & Hl' & Hs3' & Hret').
    exists (l ++ l'). rewrite Hnet', Hnet, Hs3', Hs3, app_assoc.
    repeat split; auto. apply Forall_app. split; assumption.
  - exists l. repeat split; auto. discriminate.
  - exists l. repeat split; auto. discriminate.
Qed.
End Quiet.

Lemma quiet_log (P : Request -> Prop) (level msg : string) :
  quiet P any (log level msg).
Proof.
  intros st. exists []. cbn. rewrite app_nil_r. repeat split; auto.
Qed.

Lemma quiet_try_reraise {A : Type} (P : Request -> Prop) (Q : A -> Prop)
  (catches : exn -> bool) (m : M A) (handler : exn -> M unit) :
  quiet P Q m -> (forall e, quiet P any (handler e)) ->
  quiet P Q (try_reraise catches m handler).
Proof.
  intros Hm Hh st. destruct (Hm st) as (l & Hnet & Hl & Hs3 & Hret).
  unfold try_reraise.
  destruct (m st) as [[a | e | ] st1]; cbn [fst snd] in *.
  - exists l. repeat split; auto.
  - destruct (catches e).
    + destruct (quiet_bind (B:=A) P any any (handler e) (fun _ => raise e)
                  (Hh e) (fun _ _ => quiet_raise (A:=A) P any e) st1)
        as (l' & Hnet' & Hl' & Hs3' & Hret').
      exists (l ++ l'). rewrite Hnet', Hnet, Hs3', Hs3, app_assoc.
      repeat split; auto.
      * apply Forall_app. split; assumption.
      * intros a Ha. unfold bind, raise in Ha.
        destruct (handler e st1) as [[u | e' | ] st2]; discriminate Ha.
    + exists l. repeat split; auto; discriminate.
  - exists l. repeat split; auto; discriminate.
Qed.

Lemma quiet_do_urlopen (P : Request -> Prop) (env : Env) (request : Request) :
  P request ->
  quiet P (fun r => delivered env request (snd r)) (do_urlopen env request).
Proof.
  intros HP st. exists [request].
  destruct (do_urlopen env request st) as [o st'] eqn:Hrun.
  assert (Hst : st' = mk_state (st_net st ++ [request]) (st_log st) (st_s3 st)
                        (st_calls st ++ [Urlopen request])).
  { unfold do_urlopen in Hrun.
    destruct (urlopen env (List.length (st_net st)) request)
      as [e | [status body]];
      [|destruct ((200 <=? status) && (status <? 300))%bool];
      injection Hrun as _ <-; reflexivity. }
  subst st'. cbn [fst snd st_net st_s3]. repeat split; auto.
  intros [status body] ->.
  destruct (do_urlopen_returns_2xx env request st _ status body Hrun)
    as [Hstatus Hopen].
  exists (List.length (st_net st)), status. split; assumption.
Qed.

(** The client sends at most the request it built, and what it returns was
    decoded by [json.loads]. *)
Lemma quiet_make_request (P : Request -> Prop) (rt : Runtime) (env : Env)
  (endpoint : string) (params : option dict) :
  P (build_request rt env endpoint (default_dict params)) ->
  quiet P
    (fun data =>
       exists body,
         json_loads rt body = Return data
         /\ delivered env (build_request rt env endpoint (default_dict params))
              body)
    (_make_tmdb_request rt env endpoint params).
Proof.
  intros HP. unfold _make_tmdb_request.
  destruct (token_missing env).
  - eapply quiet_bind; [apply quiet_log|]. intros _ _. apply quiet_raise.
  - eapply quiet_bind; [apply quiet_log|]. intros _ _.
    eapply quiet_bind.
    + apply quiet_try_reraise; [apply quiet_do_urlopen; exact HP|].
      intros e. apply quiet_log.
    + intros [status body] Hdelivered. cbn [fst snd] in *.
      destruct ((status <? 200) || (status >=? 300))%bool.
      * eapply quiet_bind; [apply quiet_log|]. intros _ _. apply quiet_raise.
      * apply quiet_try_reraise; [|intros e; apply quiet_log].
        eapply quiet_weaken; [|apply quiet_lift].
        intros data Hdata. exists body. split; [exact Hdata|].
        exact Hdelivered.
Qed.

(** With a token, the client hands exactly one request to [urlopen],
    whatever the answer. *)
Lemma make_request_sends (rt : Runtime) (env : Env) (endpoint : string)
  (params : option dict) (st : state) :
  token_missing env = false ->
  st_net (snd (_make_tmdb_request rt env endpoint params st))
  = st_net st ++ [build_request rt env endpoint (default_dict params)].
Proof.
  intros Htok. unfold _make_tmdb_request. rewrite Htok.
  unfold bind, try_reraise, do_urlopen, logger_info, logger_error, log, raise,
    lift.
  cbn [st_net st_log st_s3].
  destruct (urlopen env (List.length (st_net st))
              (build_request rt env endpoint (default_dict params)))
    as [e | [status body]]; cbn [fst snd st_net]; [reflexivity|].
  destruct ((200 <=? status) && (status <? 300))%bool; cbn [fst snd st_net];
    [|reflexivity].
  destruct ((status <? 200) || (status >=? 300))%bool; [reflexivity|].
  destruct (json_loads rt body) as [data | e | ]; cbn [fst snd st_net];
    try reflexivity.
  destruct (is_JSONDecodeError e); reflexivity.
Qed.

(** ** Pager: what any run does *)

(** The part of the loop body after the response has been decoded. *)
Ltac quiet_loop_rest :=
  eapply quiet_bind; [apply quiet_lift|]; intros results Hres;
  eapply quiet_bind; [apply quiet_lift|]; intros tp Htp;
  eapply quiet_bind; [apply quiet_lift|]; intros over Hover;
  eapply quiet_bind with (Q := fun tp' => tp' = if over then PyInt 500 else tp);
  [ destruct over;
    [ eapply quiet_bind; [apply quiet_log|]; intros _ _;
      apply quiet_ret; reflexivity
    | apply quiet_ret; reflexivity ] | ];
  intros tp' ->;
  eapply quiet_bind; [apply quiet_lift|]; intros n Hn;
  eapply quiet_bind; [apply quiet_log|]; intros _ _;
  eapply quiet_bind; [apply quiet_lift|]; intros items Hitems;
  (destruct (reached_max _ _); [apply quiet_ret; exact I|]);
  eapply quiet_bind; [apply quiet_lift|]; intros stop Hstop;
  (destruct stop; [apply quiet_ret; exact I|]).

(** The loop keeps an invariant [Inv] of the page number as long as [Inv]
    survives [page += 1] whenever the loop goes round; every request then
    satisfies what [Inv] gives for its page. *)
Lemma fetch_loop_invariant (rt : Runtime) (env : Env) (endpoint : string)
  (extra : dict) (max_pages : option Z) (P : Request -> Prop)
  (Inv : Z -> Prop) :
  (forall page, Inv page ->
     P (build_request rt env endpoint (dict_set extra "page" (PyInt page)))) ->
  (forall page body d tp over,
     Inv page ->
     delivered env
       (build_request rt env endpoint (dict_set extra "page" (PyInt page)))
       body ->
     json_loads rt body = Return (PyDict d) ->
     py_get (PyDict d) "total_pages" (PyInt 1) = Return tp ->
     py_gt_int tp 500 = Return over ->
     py_int_ge page (if over then PyInt 500 else tp) = Return false ->
     Inv (page + 1)) ->
  forall (fuel : nat) (page : Z) (acc : list pyval),
    Inv page ->
    quiet P any (fetch_loop rt env fuel endpoint extra max_pages page acc).
Proof.
  intros HP Hstep.
  induction fuel as [|fuel IH]; intros page acc Hinv; cbn [fetch_loop];
    (eapply quiet_bind; [apply quiet_make_request, HP, Hinv|]);
    intros data (body & Hbody & Hdelivered); quiet_loop_rest.
  - apply quiet_out_of_fuel.
  - apply IH. destruct data as [ | | | | | | d]; try discriminate Hres.
    apply (Hstep page body d tp over); assumption.
Qed.

Lemma fetch_loop_quiet (rt : Runtime) (env : Env) (fuel : nat)
  (endpoint : string) (extra : dict) (max_pages : option Z) (page : Z)
  (acc : list pyval) :
  quiet any any (fetch_loop rt env fuel endpoint extra max_pages page acc).
Proof.
  apply fetch_loop_invariant with (Inv := any); intros; exact I.
Qed.

Lemma fetch_all_pages_quiet (rt : Runtime) (env : Env) (fuel : nat)
  (endpoint : string) (extra_params : option dict) (max_pages : option Z) :
  quiet any any (fetch_all_pages rt env fuel endpoint extra_params max_pages).
Proof.
  unfold fetch_all_pages.
  eapply quiet_bind; [apply fetch_loop_quiet|]. intros all_results _.
  eapply quiet_bind; [apply quiet_log|]. intros _ _.
  apply quiet_ret. exact I.
Qed.

Lemma fetch_genres_quiet (rt : Runtime) (env : Env) :
  quiet any any (fetch_genres rt env).
Proof.
  unfold fetch_genres.
  eapply quiet_bind; [apply quiet_make_request; exact I|]. intros data _.
  eapply quiet_bind; [apply quiet_lift|]. intros genres _.
  eapply quiet_bind; [apply quiet_lift|]. intros n _.
  eapply quiet_bind; [apply quiet_log|]. intros _ _.
  apply quiet_ret. exact I.
Qed.

(** With a token, the loop entered at [page] sends the request for [page]
    before anything else, whatever [max_pages] and the responses are. *)
Lemma fetch_loop_first_request (rt : Runtime) (env : Env) (fuel : nat)
  (endpoint : string) (extra : dict) (max_pages : option Z) (page : Z)
  (acc : list pyval) (st : state) :
  token_missing env = false ->
  exists l : list Request,
    st_net (snd (fetch_loop rt env fuel endpoint extra max_pages page acc st))
    = st_net st
        ++ build_request rt env endpoint (dict_set extra "page" (PyInt page))
        :: l.
Proof.
  intros Htok.
  pose proof (make_request_sends rt env endpoint
                (Some (dict_set extra "page" (PyInt page))) st Htok) as Hsend.
  cbn [default_dict] in Hsend.
  destruct fuel as [|fuel]; cbn [fetch_loop]; unfold bind at 1;
    destruct (_make_tmdb_request rt env endpoint
                (Some (dict_set extra "page" (PyInt page))) st)
      as [[data | e | ] st1]; cbn [fst snd] in *;
    try (exists []; rewrite Hsend; reflexivity).
  - match goal with
    | |- context [snd (?k st1)] =>
        assert (Hq : quiet any any k)
    end.
    { quiet_loop_rest. apply quiet_out_of_fuel. }
    destruct (Hq st1) as (l & Hnet & _). exists l.
    rewrite Hnet, Hsend, <- app_assoc. reflexivity.
  - match goal with
    | |- context [snd (?k st1)] =>
        assert (Hq : quiet any any k)
    end.
    { quiet_loop_rest. apply fetch_loop_quiet. }
    destruct (Hq st1) as (l & Hnet & _). exists l.
    rewrite Hnet, Hsend, <- app_assoc. reflexivity.
Qed.

Lemma skipn_length_app {X : Type} (l l' : list X) :
  skipn (List.length l) (l ++ l') = l'.
Proof. induction l as [|x l IH]; [reflexivity|exact IH]. Qed.

Lemma new_requests_app (st st' : state) (l : list Request) :
  st_net st' = st_net st ++ l -> new_requests st st' = l.
Proof. intros H. unfold new_requests. rewrite H. apply skipn_length_app. Qed.

(** Going round the loop means the page is still below the cap, unless the
    reported total is NaN. *)
Lemma continue_below_cap (page : Z) (tp : pyval) (over : bool) :
  tp <> PyFloat FNaN ->
  1 <= page ->
  py_gt_int tp 500 = Return over ->
  py_int_ge page (if over then PyInt 500 else tp) = Return false ->
  page < 500.
Proof.
  intros Hnan Hpage Hover Hstop.
  destruct tp as [ | b | k | f | s | l | d]; try discriminate Hover;
    cbn [py_gt_int] in Hover; injection Hover as <-.
  - destruct b; cbn in Hstop; injection Hstop as Hstop; lia.
  - destruct (Z.gtb_spec k 500); cbn [py_int_ge] in Hstop;
      injection Hstop as Hstop; lia.
  - destruct f as [ | negative | m e]; [congruence | | ].
    + destruct negative; cbn in Hstop; injection Hstop as Hstop;
        [discriminate Hstop | lia].
    + unfold float_cmp_int in Hstop |- *.
      assert (Hpow : 0 < 2 ^ (- e) \/ 0 <= e) by
        (destruct (Z.leb_spec 0 e); [right; lia | left; apply Z.pow_pos_nonneg; lia]).
      destruct (0 <=? e) eqn:He.
      * destruct (m * 2 ^ e ?= 500) eqn:H500; cbn [py_int_ge] in Hstop;
          try (injection Hstop as Hstop; lia);
          unfold float_cmp_int in Hstop; rewrite He in Hstop;
          destruct (m * 2 ^ e ?= page) eqn:Hp; try discriminate Hstop;
          rewrite ?Z.compare_eq_iff, ?Z.compare_lt_iff, ?Z.compare_gt_iff in *;
          lia.
      * apply Z.leb_gt in He. destruct Hpow as [Hpow | Hpow]; [|lia].
        destruct (m ?= 500 * 2 ^ (- e)) eqn:H500; cbn [py_int_ge] in Hstop;
          try (injection Hstop as Hstop; lia);
          unfold float_cmp_int in Hstop;
          replace (0 <=? e) with false in Hstop by (symmetry; apply Z.leb_gt; lia);
          destruct (m ?= page * 2 ^ (- e)) eqn:Hp; try discriminate Hstop;
          rewrite ?Z.compare_eq_iff, ?Z.compare_lt_iff, ?Z.compare_gt_iff in *;
          nia.
Qed.

(** Unless a 2xx response to one of its page requests reports a NaN
    [total_pages], every request of the pager is the request for a page
    between 1 and 500, for every sequence of responses and every
    [max_pages]. *)
Theorem fetch_all_pages_within_cap (rt : Runtime) (env : Env) (fuel : nat)
  (endpoint : string) (extra_params : option dict) (max_pages : option Z)
  (st : state) :
  no_nan_response rt env (is_page_request rt env endpoint extra_params) ->
  Forall (fun request =>
            exists p, 1 <= p <= 500
                      /\ request = page_request rt env endpoint extra_params p)
    (new_requests st
       (snd (fetch_all_pages rt env fuel endpoint extra_params max_pages st))).
Proof.
  intros Hnan.
  assert (Hq : quiet
                 (fun request =>
                    exists p, 1 <= p <= 500
                              /\ request
                                 = page_request rt env endpoint extra_params p)
                 any
                 (fetch_all_pages rt env fuel endpoint extra_params max_pages)).
  { unfold fetch_all_pages.
    eapply quiet_bind.
    - apply fetch_loop_invariant with (Inv := fun page => 1 <= page <= 500).
      + intros page Hpage. exists page. split; [exact Hpage|reflexivity].
      + intros page body d tp over Hpage Hdelivered Hbody Htp Hover Hstop.
        assert (page < 500); [|lia].
        apply (continue_below_cap page tp over); try assumption; [|lia].
        cbn [py_get] in Htp. injection Htp as <-.
        pose proof (Hnan _ body d (ex_intro _ page eq_refl) Hdelivered Hbody)
          as Hd.
        destruct (dict_get d "total_pages"); congruence.
      + lia.
    - intros all_results _.
      eapply quiet_bind; [apply quiet_log|]. intros _ _.
      apply quiet_ret. exact I. }
  destruct (Hq st) as (l & Hnet & Hl & _).
  rewrite (new_requests_app _ _ l Hnet). exact Hl.
Qed.

Lemma status_env_delivers (status : Z) (body body' : string)
  (request : Request) :
  delivered (status_env status body) request body' -> body' = body.
Proof.
  intros (n & status' & Hopen & _). cbn in Hopen.
  injection Hopen as _ <-. reflexivity.
Qed.

Lemma fetch_all_pages_within_cap_witness :
  Forall (fun request =>
            exists p, 1 <= p <= 500
                      /\ request
                         = page_request demo_rt (status_env 200 body_many)
                             "/movie/top_rated" en_US p)
    (new_requests init_state
       (snd (fetch_all_pages demo_rt (status_env 200 body_many) 600
               "/movie/top_rated" en_US (Some 1000) init_state))).
Proof.
  apply (fetch_all_pages_within_cap demo_rt (status_env 200 body_many) 600
           "/movie/top_rated" en_US (Some 1000) init_state).
  intros request body d _ Hdelivered Hbody.
  apply status_env_delivers in Hdelivered. subst body.
  vm_compute in Hbody. injection Hbody as <-. discriminate.
Defined.

(** ** Pager: runs against well-formed responses *)

(** One turn of the loop on a 2xx response that decodes to an object with a
    list of results and a numeric (or absent) [total_pages]. *)
Lemma fetch_loop_iteration (rt : Runtime) (env : Env) (fuel : nat)
  (endpoint : string) (extra : dict) (max_pages : option Z) (page : Z)
  (acc : list pyval) (st : state) (status : Z) (body : string) (d : dict)
  (rs : list pyval) (tp : pyval) (over : bool) :
  let request :=
    build_request rt env endpoint (dict_set extra "page" (PyInt page)) in
  token_missing env = false ->
  urlopen env (List.length (st_net st)) request = inr (status, body) ->
  200 <= status < 300 ->
  json_loads rt body = Return (PyDict d) ->
  dict_get d "results" = Some (PyList rs) ->
  py_get (PyDict d) "total_pages" (PyInt 1) = Return tp ->
  py_gt_int tp 500 = Return over ->
  exists st1 : state,
    st_net st1 = st_net st ++ [request]
    /\ st_s3 st1 = st_s3 st
    /\ fetch_loop rt env fuel endpoint extra max_pages page acc st
       = if reached_max max_pages page then (Return (acc ++ rs), st1)
         else match py_int_ge page (if over then PyInt 500 else tp) with
              | Return true => (Return (acc ++ rs), st1)
              | Return false =>
                  match fuel with
                  | O => (OutOfFuel, st1)
                  | S fuel' =>
                      fetch_loop rt env fuel' endpoint extra max_pages
                        (page + 1) (acc ++ rs) st1
                  end
              | Raise e => (Raise e, st1)
              | OutOfFuel => (OutOfFuel, st1)
              end.
Proof.
  intros request Htok Hopen Hstatus Hjson Hres Htp Hover.
  pose proof (make_request_ok rt env endpoint
                (Some (dict_set extra "page" (PyInt page))) st status body
                (PyDict d) Htok Hopen Hstatus Hjson) as Hreq.
  cbn [default_dict] in Hreq. fold request in Hreq.
  assert (Hbody :
            forall fuel0,
              fetch_loop rt env fuel0 endpoint extra max_pages page acc st
              = (data <- _make_tmdb_request rt env endpoint
                           (Some (dict_set extra "page" (PyInt page))) ;;
                 results <- lift (py_get data "results" (PyList [])) ;;
                 total_pages <- lift (py_get data "total_pages" (PyInt 1)) ;;
                 over0 <- lift (py_gt_int total_pages 500) ;;
                 total_pages <- (if over0 : bool then
                                   logger_warning
                                     (endpoint +++ ": total_pages "
                                        +++ py_str rt total_pages
                                        +++ " > 500, capping at 500") ;;;
                                   ret (PyInt 500)
                                 else ret total_pages) ;;
                 n <- lift (py_len results) ;;
                 logger_info ("Fetched page " +++ int_str page +++ " of "
                                +++ py_str rt total_pages +++ " from "
                                +++ endpoint +++ ", items: " +++ int_str n) ;;;
                 items <- lift (py_iter results) ;;
                 if reached_max max_pages page then ret (acc ++ items)
                 else
                   stop <- lift (py_int_ge page total_pages) ;;
                   if stop : bool then ret (acc ++ items)
                   else
                     match fuel0 with
                     | O => out_of_fuel
                     | S fuel' =>
                         fetch_loop rt env fuel' endpoint extra max_pages
                           (page + 1) (acc ++ items)
                     end) st)
    by (intros [|fuel0]; reflexivity).
  rewrite Hbody. clear Hbody.
  unfold bind at 1. rewrite Hreq.
  unfold bind at 1. unfold lift at 1. cbn [py_get]. rewrite Hres.
  unfold bind at 1. unfold lift at 1. cbn [py_get] in Htp. injection Htp as Htp.
  rewrite Htp.
  unfold bind at 1. unfold lift at 1. rewrite Hover.
  destruct over.
  - eexists. split; [|split];
      [| | unfold bind, lift, logger_warning, logger_info, log, ret, out_of_fuel;
           cbn [py_len py_iter st_net st_log st_s3 after_request];
           destruct (reached_max max_pages page); [reflexivity|];
           destruct (py_int_ge page (PyInt 500)) as [[|] | e | ];
           try reflexivity; destruct fuel; reflexivity ].
    + reflexivity.
    + reflexivity.
  - eexists. split; [|split];
      [| | unfold bind, lift, logger_warning, logger_info, log, ret, out_of_fuel;
           cbn [py_len py_iter st_net st_log st_s3 after_request];
           destruct (reached_max max_pages page); [reflexivity|];
           destruct (py_int_ge page tp) as [[|] | e | ];
           try reflexivity; destruct fuel; reflexivity ].
    + reflexivity.
    + reflexivity.
Qed.

Lemma pages_from_cons (page : Z) (count : nat) :
  pages_from page (S count) = page :: pages_from (page + 1) count.
Proof.
  unfold pages_from. cbn [seq map]. rewrite Z.add_0_r. f_equal.
  rewrite <- seq_shift, map_map. apply map_ext. intros i. lia.
Qed.

Lemma pages_upto_from (n : Z) : pages_upto n = pages_from 1 (Z.to_nat n).
Proof.
  unfold pages_upto, pages_from.
  rewrite <- seq_shift, map_map. apply map_ext. intros i. lia.
Qed.

Lemma clamp_is_min (T : Z) : (if T >? 500 then 500 else T) = Z.min T 500.
Proof. destruct (Z.gtb_spec T 500); lia. Qed.

Lemma at_stop_page (max_pages : option Z) (T page : Z) :
  page = stop_page max_pages T ->
  reached_max max_pages page = true \/ (page >=? Z.min T 500) = true.
Proof.
  intros ->. unfold stop_page, reached_max.
  destruct max_pages as [M|].
  - destruct (Z.geb_spec (Z.min (Z.max M 1) (Z.min (Z.max T 1) 500)) M);
      [left; reflexivity|].
    right. apply Z.geb_le. lia.
  - right. apply Z.geb_le. lia.
Qed.

Lemma below_stop_page (max_pages : option Z) (T page : Z) :
  1 <= page < stop_page max_pages T ->
  reached_max max_pages page = false /\ (page >=? Z.min T 500) = false.
Proof.
  unfold stop_page, reached_max. intros H.
  destruct max_pages as [M|]; split;
    try reflexivity;
    match goal with
    | |- (?a >=? ?b) = false => destruct (Z.geb_spec a b); [lia|reflexivity]
    end.
Qed.

(** When every page up to the stop page is answered with [total_pages = T],
    the loop entered at [page] fetches the pages from [page] to the stop
    page, in order, and returns their results appended to [acc]. *)
Lemma fetch_loop_run (rt : Runtime) (env : Env) (endpoint : string)
  (extra_params : option dict) (max_pages : option Z) (T : Z)
  (pages : Z -> list pyval) :
  token_missing env = false ->
  (forall p, 1 <= p <= stop_page max_pages T ->
             answers_page rt env endpoint extra_params T (pages p) p) ->
  forall (k fuel : nat) (page : Z) (acc : list pyval) (st : state),
    1 <= page ->
    page + Z.of_nat k = stop_page max_pages T ->
    (k <= fuel)%nat ->
    exists st' : state,
      fetch_loop rt env fuel endpoint (default_dict extra_params) max_pages
        page acc st
      = (Return (acc ++ concat (map pages (pages_from page (S k)))), st')
      /\ st_net st'
         = st_net st
             ++ map (page_request rt env endpoint extra_params)
                  (pages_from page (S k))
      /\ st_s3 st' = st_s3 st.
Proof.
  intros Htok Hans.
  induction k as [|k IH]; intros fuel page acc st Hpage Hstop Hfuel.
  - destruct (Hans page ltac:(lia) (List.length (st_net st)))
      as (status & body & d & Hopen & Hstatus & Hjson & Htot & Hres).
    destruct (fetch_loop_iteration rt env fuel endpoint
                (default_dict extra_params) max_pages page acc st status body
                d (pages page) (PyInt T) (T >? 500) Htok Hopen Hstatus Hjson
                Hres)
      as (st1 & Hnet & Hs3 & Heq);
      [cbn [py_get]; rewrite Htot; reflexivity | reflexivity |].
    exists st1. rewrite Heq.
    replace (if T >? 500 then PyInt 500 else PyInt T)
      with (PyInt (Z.min T 500))
      by (rewrite <- clamp_is_min; destruct (T >? 500); reflexivity).
    cbn [py_int_ge pages_from seq map concat].
    rewrite Z.add_0_r, !app_nil_r.
    destruct (at_stop_page max_pages T page ltac:(lia)) as [-> | Hge].
    + repeat split; assumption.
    + rewrite Hge. destruct (reached_max max_pages page); repeat split;
        assumption.
  - destruct (Hans page ltac:(lia) (List.length (st_net st)))
      as (status & body & d & Hopen & Hstatus & Hjson & Htot & Hres).
    destruct (fetch_loop_iteration rt env fuel endpoint
                (default_dict extra_params) max_pages page acc st status body
                d (pages page) (PyInt T) (T >? 500) Htok Hopen Hstatus Hjson
                Hres)
      as (st1 & Hnet & Hs3 & Heq);
      [cbn [py_get]; rewrite Htot; reflexivity | reflexivity |].
    rewrite Heq.
    replace (if T >? 500 then PyInt 500 else PyInt T)
      with (PyInt (Z.min T 500))
      by (rewrite <- clamp_is_min; destruct (T >? 500); reflexivity).
    cbn [py_int_ge].
    destruct (below_stop_page max_pages T page ltac:(lia)) as [-> ->].
    destruct fuel as [|fuel]; [lia|].
    destruct (IH fuel (page + 1) (acc ++ pages page) st1
                ltac:(lia) ltac:(lia) ltac:(lia))
      as (st' & Hrun & Hnet' & Hs3').
    exists st'. rewrite Hrun, Hnet', Hnet, Hs3', Hs3.
    rewrite (pages_from_cons page (S k)). cbn [map concat].
    rewrite <- !app_assoc. repeat split.
Qed.

Lemma fetch_all_pages_of_loop (rt : Runtime) (env : Env) (fuel : nat)
  (endpoint : string) (extra_params : option dict) (max_pages : option Z)
  (st : state) :
  let r := fetch_all_pages rt env fuel endpoint extra_params max_pages st in
  let r0 := fetch_loop rt env fuel endpoint (default_dict extra_params)
              max_pages 1 [] st in
  fst r = fst r0 /\ st_net (snd r) = st_net (snd r0)
  /\ st_s3 (snd r) = st_s3 (snd r0).
Proof.
  cbv zeta. unfold fetch_all_pages, bind.
  destruct (fetch_loop rt env fuel endpoint (default_dict extra_params)
              max_pages 1 [] st) as [[a | e | ] st1];
    cbn; repeat split.
Qed.

(** The pager against an endpoint that answers every page up to the stop
    page with [total_pages = T]. *)
Lemma fetch_all_pages_run (rt : Runtime) (env : Env) (fuel : nat)
  (endpoint : string) (extra_params : option dict) (max_pages : option Z)
  (T : Z) (pages : Z -> list pyval) (st : state) :
  token_missing env = false ->
  (forall p, 1 <= p <= stop_page max_pages T ->
             answers_page rt env endpoint extra_params T (pages p) p) ->
  (Z.to_nat (stop_page max_pages T) <= S fuel)%nat ->
  let r := fetch_all_pages rt env fuel endpoint extra_params max_pages st in
  fst r = Return (concat (map pages (pages_upto (stop_page max_pages T))))
  /\ new_requests st (snd r)
     = map (page_request rt env endpoint extra_params)
         (pages_upto (stop_page max_pages T)).
Proof.
  intros Htok Hans Hfuel r.
  assert (Hstop : 1 <= stop_page max_pages T)
    by (unfold stop_page; destruct max_pages; lia).
  destruct (fetch_loop_run rt env endpoint extra_params max_pages T pages
              Htok Hans (Z.to_nat (stop_page max_pages T) - 1) fuel 1 [] st
              ltac:(lia) ltac:(lia) ltac:(lia))
    as (st' & Hrun & Hnet & _).
  replace (S (Z.to_nat (stop_page max_pages T) - 1))
    with (Z.to_nat (stop_page max_pages T)) in * by lia.
  rewrite <- pages_upto_from in *.
  destruct (fetch_all_pages_of_loop rt env fuel endpoint extra_params
              max_pages st) as (Hfst & Hsnd & _).
  subst r. rewrite Hfst, Hrun. cbn [fst app]. split; [reflexivity|].
  apply new_requests_app. rewrite Hsnd, Hrun. exact Hnet.
Qed.

(** ** Pager: number and order of the requests *)

(** C1: when every response reports [total_pages = T >= 1] and no
    [max_pages] is given, the pager sends exactly [min(T, 500)] requests,
    for the pages [1 .. min(T, 500)] in increasing order, and returns the
    per-page results concatenated in page order; the length of the returned
    list is the sum of the per-page lengths. *)
Theorem fetch_all_pages_uncapped (rt : Runtime) (env : Env) (fuel : nat)
  (endpoint : string) (extra_params : option dict) (T : Z)
  (pages : Z -> list pyval) (st : state) :
  token_missing env = false ->
  1 <= T ->
  (forall p, 1 <= p <= Z.min T 500 ->
             answers_page rt env endpoint extra_params T (pages p) p) ->
  (Z.to_nat (Z.min T 500) <= S fuel)%nat ->
  let r := fetch_all_pages rt env fuel endpoint extra_params None st in
  let fetched := pages_upto (Z.min T 500) in
  new_requests st (snd r)
    = map (page_request rt env endpoint extra_params) fetched
  /\ List.length (new_requests st (snd r)) = Z.to_nat (Z.min T 500)
  /\ exists all_results : list pyval,
       fst r = Return all_results
       /\ all_results = concat (map pages fetched)
       /\ List.length all_results
          = list_sum (map (fun p => List.length (pages p)) fetched).
Proof.
  intros Htok HT Hans Hfuel r fetched.
  assert (Hstop : stop_page None T = Z.min T 500)
    by (unfold stop_page; lia).
  destruct (fetch_all_pages_run rt env fuel endpoint extra_params None T
              pages st Htok) as (Hret & Hreq).
  - rewrite Hstop. exact Hans.
  - rewrite Hstop. exact Hfuel.
  - rewrite Hstop in Hret, Hreq. fold r in Hret, Hreq. fold fetched in Hret, Hreq.
    split; [exact Hreq|]. split.
    + rewrite Hreq, length_map. unfold fetched, pages_upto.
      rewrite length_map, length_seq. reflexivity.
    + exists (concat (map pages fetched)).
      split; [exact Hret|]. split; [reflexivity|].
      rewrite length_concat, map_map. reflexivity.
Qed.

Lemma two_page_env_answers (p : Z) :
  1 <= p <= 2 ->
  answers_page demo_rt two_page_env "/movie/top_rated" en_US 2
    (if p =? 1 then [ PyDict [("id", PyInt 11)] ]
     else [ PyDict [("id", PyInt 12)]; PyDict [("id", PyInt 13)] ]) p.
Proof.
  intros Hp n.
  assert (Hcases : p = 1 \/ p = 2) by lia.
  destruct Hcases as [-> | ->].
  - exists 200, body_page1. eexists.
    split; [reflexivity|]. split; [lia|].
    split; [reflexivity|]. split; reflexivity.
  - exists 200, body_page2. eexists.
    split; [reflexivity|]. split; [lia|].
    split; [reflexivity|]. split; reflexivity.
Qed.

Lemma fetch_all_pages_uncapped_witness :
  let r := fetch_all_pages demo_rt two_page_env 4 "/movie/top_rated" en_US
             None init_state in
  let fetched := pages_upto (Z.min 2 500) in
  let pages := fun p : Z =>
                 if p =? 1 then [ PyDict [("id", PyInt 11)] ]
                 else [ PyDict [("id", PyInt 12)]; PyDict [("id", PyInt 13)] ] in
  new_requests init_state (snd r)
    = map (page_request demo_rt two_page_env "/movie/top_rated" en_US) fetched
  /\ List.length (new_requests init_state (snd r)) = Z.to_nat (Z.min 2 500)
  /\ exists all_results : list pyval,
       fst r = Return all_results
       /\ all_results = concat (map pages fetched)
       /\ List.length all_results
          = list_sum (map (fun p => List.length (pages p)) fetched).
Proof.
  apply (fetch_all_pages_uncapped demo_rt two_page_env 4 "/movie/top_rated"
           en_US 2
           (fun p : Z =>
              if p =? 1 then [ PyDict [("id", PyInt 11)] ]
              else [ PyDict [("id", PyInt 12)]; PyDict [("id", PyInt 13)] ])
           init_state).
  - reflexivity.
  - lia.
  - intros p Hp. apply two_page_env_answers. lia.
  - vm_compute. lia.
Defined.

(** C3 (as the code has it): with [max_pages = M] and every response
    reporting [total_pages = T > M], the pager sends exactly
    [min(max(M, 1), 500)] requests, for the pages from 1 on: exactly [M]
    when [1 <= M <= 500]. *)
Theorem fetch_all_pages_limited (rt : Runtime) (env : Env) (fuel : nat)
  (endpoint : string) (extra_params : option dict) (M T : Z)
  (pages : Z -> list pyval) (st : state) :
  token_missing env = false ->
  M < T ->
  (forall p, 1 <= p <= limited_page_count M ->
             answers_page rt env endpoint extra_params T (pages p) p) ->
  (Z.to_nat (limited_page_count M) <= S fuel)%nat ->
  let r := fetch_all_pages rt env fuel endpoint extra_params (Some M) st in
  new_requests st (snd r)
    = map (page_request rt env endpoint extra_params)
        (pages_upto (limited_page_count M))
  /\ Z.of_nat (List.length (new_requests st (snd r))) = limited_page_count M
  /\ (1 <= M <= 500 -> Z.of_nat (List.length (new_requests st (snd r))) = M).
Proof.
  intros Htok HM Hans Hfuel r.
  assert (Hstop : stop_page (Some M) T = limited_page_count M)
    by (unfold stop_page, limited_page_count; lia).
  destruct (fetch_all_pages_run rt env fuel endpoint extra_params (Some M) T
              pages st Htok) as (_ & Hreq).
  - rewrite Hstop. exact Hans.
  - rewrite Hstop. exact Hfuel.
  - rewrite Hstop in Hreq. fold r in Hreq.
    assert (Hlen : Z.of_nat (List.length (new_requests st (snd r)))
                   = limited_page_count M).
    { rewrite Hreq, length_map. unfold pages_upto.
      rewrite length_map, length_seq. unfold limited_page_count. lia. }
    split; [exact Hreq|]. split; [exact Hlen|].
    intros HM'. rewrite Hlen. unfold limited_page_count. lia.
Qed.

Lemma fetch_all_pages_limited_witness :
  let r := fetch_all_pages demo_rt two_page_env 4 "/movie/top_rated" en_US
             (Some 1) init_state in
  new_requests init_state (snd r)
    = [ page_request demo_rt two_page_env "/movie/top_rated" en_US 1 ]
  /\ Z.of_nat (List.length (new_requests init_state (snd r))) = 1.
Proof.
  destruct (fetch_all_pages_limited demo_rt two_page_env 4 "/movie/top_rated"
              en_US 1 2
              (fun p : Z =>
                 if p =? 1 then [ PyDict [("id", PyInt 11)] ]
                 else [ PyDict [("id", PyInt 12)]; PyDict [("id", PyInt 13)] ])
              init_state)
    as (Hreq & _ & Hlen).
  - reflexivity.
  - lia.
  - intros p Hp. apply two_page_env_answers. unfold limited_page_count in Hp. lia.
  - vm_compute. lia.
  - split; [exact Hreq|]. apply Hlen. lia.
Defined.

Lemma status_env_answers (body : string) (d : dict) (T : Z)
  (rs : list pyval) (endpoint : string) (extra_params : option dict) (p : Z) :
  json_loads demo_rt body = Return (PyDict d) ->
  dict_get d "total_pages" = Some (PyInt T) ->
  dict_get d "results" = Some (PyList rs) ->
  answers_page demo_rt (status_env 200 body) endpoint extra_params T rs p.
Proof.
  intros Hjson HT Hrs n. exists 200, body, d.
  split; [reflexivity|]. split; [lia|]. auto.
Qed.

(** C3 (as stated) fails at both ends: with [M = 0 < T = 2] the pager sends
    one request, not zero, and with [M = 501 < T = 502] it sends 500
    requests, not 501. *)
Lemma max_pages_not_request_count :
  ~ (forall (rt : Runtime) (env : Env) (fuel : nat) (endpoint : string)
       (extra_params : option dict) (M T : Z) (pages : Z -> list pyval)
       (st : state),
        token_missing env = false ->
        M < T ->
        (forall p, 1 <= p ->
                   answers_page rt env endpoint extra_params T (pages p) p) ->
        (500 <= fuel)%nat ->
        Z.of_nat
          (List.length
             (new_requests st
                (snd (fetch_all_pages rt env fuel endpoint extra_params
                        (Some M) st))))
        = M)
  /\ List.length
       (new_requests init_state
          (snd (fetch_all_pages demo_rt (status_env 200 body_page1) 500
                  "/movie/top_rated" en_US (Some 0) init_state)))
     = 1%nat
  /\ List.length
       (new_requests init_state
          (snd (fetch_all_pages demo_rt (status_env 200 body_many) 500
                  "/movie/top_rated" en_US (Some 501) init_state)))
     = 500%nat.
Proof.
  assert (H0 : List.length
                 (new_requests init_state
                    (snd (fetch_all_pages demo_rt (status_env 200 body_page1)
                            500 "/movie/top_rated" en_US (Some 0) init_state)))
               = 1%nat) by reflexivity.
  assert (H501 : List.length
                   (new_requests init_state
                      (snd (fetch_all_pages demo_rt (status_env 200 body_many)
                              500 "/movie/top_rated" en_US (Some 501)
                              init_state)))
                 = 500%nat).
  { destruct (fetch_all_pages_run demo_rt (status_env 200 body_many) 500
                "/movie/top_rated" en_US (Some 501) 502 (fun _ => [])
                init_state eq_refl) as (_ & Hreq).
    - intros p _. eapply status_env_answers; reflexivity.
    - vm_compute. lia.
    - rewrite Hreq, length_map. reflexivity. }
  split; [|split; assumption].
  intros Hclaim.
  specialize (Hclaim demo_rt (status_env 200 body_page1) 500%nat
                "/movie/top_rated" en_US 0 2
                (fun _ => [ PyDict [("id", PyInt 11)] ]) init_state eq_refl
                ltac:(lia)).
  rewrite H0 in Hclaim. 
  assert (Z.of_nat 1 = 0); [|discriminate].
  apply Hclaim; [|lia].
  intros p _. eapply status_env_answers; reflexivity.
Qed.

Lemma number_comparable (v : pyval) :
  is_number v -> exists over : bool, py_gt_int v 500 = Return over.
Proof.
  destruct v; cbn; intros H; try contradiction; eexists; reflexivity.
Qed.

(** C10: the loop body runs before any stopping test.  With a token, the
    pager always sends the request for page 1 first; with [max_pages = M <=
    0] and a well-formed first response it sends exactly that one request
    and returns that page's results. *)
Theorem fetch_all_pages_fetches_first (rt : Runtime) (env : Env) (fuel : nat)
  (endpoint : string) (extra_params : option dict) (max_pages : option Z)
  (st : state) :
  token_missing env = false ->
  let r := fetch_all_pages rt env fuel endpoint extra_params max_pages st in
  (exists l : list Request,
      new_requests st (snd r)
      = page_request rt env endpoint extra_params 1 :: l)
  /\ (forall (M status : Z) (body : string) (d : dict) (rs : list pyval),
         max_pages = Some M ->
         M <= 0 ->
         urlopen env (List.length (st_net st))
           (page_request rt env endpoint extra_params 1) = inr (status, body) ->
         200 <= status < 300 ->
         json_loads rt body = Return (PyDict d) ->
         dict_get d "results" = Some (PyList rs) ->
         (forall v, dict_get d "total_pages" = Some v -> is_number v) ->
         fst r = Return rs
         /\ new_requests st (snd r)
            = [ page_request rt env endpoint extra_params 1 ]).
Proof.
  intros Htok r.
  destruct (fetch_all_pages_of_loop rt env fuel endpoint extra_params
              max_pages st) as (Hfst & Hsnd & _).
  fold r in Hfst, Hsnd. split.
  - destruct (fetch_loop_first_request rt env fuel endpoint
                (default_dict extra_params) max_pages 1 [] st Htok)
      as (l & Hl).
    exists l. apply new_requests_app. rewrite Hsnd. exact Hl.
  - intros M status body d rs -> HM Hopen Hstatus Hjson Hres Hnum.
    set (tp := match dict_get d "total_pages" with
               | Some v => v
               | None => PyInt 1
               end).
    assert (Htp : is_number tp).
    { unfold tp. destruct (dict_get d "total_pages") as [v|] eqn:Hv;
        [apply Hnum; reflexivity | exact I]. }
    destruct (number_comparable tp Htp) as (over & Hover).
    destruct (fetch_loop_iteration rt env fuel endpoint
                (default_dict extra_params) (Some M) 1 [] st status body d rs
                tp over Htok Hopen Hstatus Hjson Hres eq_refl Hover)
      as (st1 & Hnet & _ & Heq).
    assert (Hreached : reached_max (Some M) 1 = true)
      by (apply Z.geb_le; lia).
    rewrite Hreached in Heq. cbn [app] in Heq.
    rewrite Hfst, Heq. split; [reflexivity|].
    apply new_requests_app. rewrite Hsnd, Heq. exact Hnet.
Qed.

Lemma fetch_all_pages_fetches_first_witness :
  let r := fetch_all_pages demo_rt two_page_env 4 "/movie/top_rated" en_US
             (Some (-3)) init_state in
  fst r = Return [ PyDict [("id", PyInt 11)] ]
  /\ new_requests init_state (snd r)
     = [ page_request demo_rt two_page_env "/movie/top_rated" en_US 1 ].
Proof.
  apply (proj2 (fetch_all_pages_fetches_first demo_rt two_page_env 4
                  "/movie/top_rated" en_US (Some (-3)) init_state eq_refl)
           (-3) 200 body_page1
           [ ("page", PyInt 1);
             ("results", PyList [ PyDict [("id", PyInt 11)] ]);
             ("total_pages", PyInt 2) ]
           [ PyDict [("id", PyInt 11)] ]).
  - reflexivity.
  - lia.
  - reflexivity.
  - lia.
  - reflexivity.
  - reflexivity.
  - intros v [= <-]. exact I.
Defined.

(** The loop never stops while the responses report a NaN [total_pages]
    and no [max_pages] is given: it sends one request per unit of fuel. *)
Lemma fetch_loop_nan (rt : Runtime) (env : Env) (endpoint : string)
  (extra : dict) :
  token_missing env = false ->
  (forall n request,
      exists (status : Z) (body : string) (d : dict) (rs : list pyval),
        urlopen env n request = inr (status, body)
        /\ 200 <= status < 300
        /\ json_loads rt body = Return (PyDict d)
        /\ dict_get d "results" = Some (PyList rs)
        /\ dict_get d "total_pages" = Some (PyFloat FNaN)) ->
  forall (fuel : nat) (page : Z) (acc : list pyval) (st : state),
    fst (fetch_loop rt env fuel endpoint extra None page acc st) = OutOfFuel
    /\ st_net (snd (fetch_loop rt env fuel endpoint extra None page acc st))
       = st_net st
           ++ map (fun p => build_request rt env endpoint
                              (dict_set extra "page" (PyInt p)))
                (pages_from page (S fuel)).
Proof.
  intros Htok Hnan.
  induction fuel as [|fuel IH]; intros page acc st;
    destruct (Hnan (List.length (st_net st))
                (build_request rt env endpoint
                   (dict_set extra "page" (PyInt page))))
      as (status & body & d & rs & Hopen & Hstatus & Hjson & Hres & Htot);
    [ destruct (fetch_loop_iteration rt env 0 endpoint extra None page acc st
                  status body d rs (PyFloat FNaN) false Htok Hopen Hstatus
                  Hjson Hres)
        as (st1 & Hnet & _ & Heq)
    | destruct (fetch_loop_iteration rt env (S fuel) endpoint extra None page
                  acc st status body d rs (PyFloat FNaN) false Htok Hopen
                  Hstatus Hjson Hres)
        as (st1 & Hnet & _ & Heq) ];
    try (cbn [py_get]; rewrite Htot; reflexivity); try reflexivity;
    rewrite Heq; cbn [reached_max py_int_ge float_cmp_int].
  - cbn [fst snd pages_from seq map]. rewrite Z.add_0_r.
    split; [reflexivity|exact Hnet].
  - destruct (IH (page + 1) (acc ++ rs) st1) as (Hfst & Hsnd).
    split; [exact Hfst|].
    rewrite Hsnd, Hnet, (pages_from_cons page (S fuel)), <- app_assoc.
    reflexivity.
Qed.

(** C2 at the failing input: against responses that report
    [total_pages: NaN], the pager run with any fuel above 500 has sent the
    request for page 501 (and for every page up to its fuel) and has not
    returned. *)
Theorem fetch_all_pages_nan_exceeds_cap (extra_fuel : nat) :
  let fuel := (500 + extra_fuel)%nat in
  let r := fetch_all_pages demo_rt nan_env fuel "/movie/top_rated" en_US None
             init_state in
  fst r = OutOfFuel
  /\ new_requests init_state (snd r)
     = map (page_request demo_rt nan_env "/movie/top_rated" en_US)
         (pages_upto (Z.of_nat fuel + 1))
  /\ nth_error (new_requests init_state (snd r)) 500
     = Some (page_request demo_rt nan_env "/movie/top_rated" en_US 501)
  /\ req_url (page_request demo_rt nan_env "/movie/top_rated" en_US 501)
     = "https://api.themoviedb.org/3/movie/top_rated?language=en-US&page=501".
Proof.
  intros fuel r.
  destruct (fetch_all_pages_of_loop demo_rt nan_env fuel "/movie/top_rated"
              en_US None init_state) as (Hfst & Hsnd & _).
  fold r in Hfst, Hsnd.
  destruct (fetch_loop_nan demo_rt nan_env "/movie/top_rated"
              (default_dict en_US) eq_refl) with
    (fuel := fuel) (page := 1) (acc := @nil pyval) (st := init_state)
    as (Hout & Hnet).
  { intros n request. exists 200, body_nan. do 2 eexists.
    split; [reflexivity|]. split; [lia|]. split; [reflexivity|].
    split; reflexivity. }
  assert (Hreq : new_requests init_state (snd r)
                 = map (page_request demo_rt nan_env "/movie/top_rated" en_US)
                     (pages_upto (Z.of_nat fuel + 1))).
  { apply new_requests_app. rewrite Hsnd, Hnet. cbn [init_state st_net app].
    rewrite pages_upto_from.
    replace (Z.to_nat (Z.of_nat fuel + 1)) with (S fuel) by lia.
    reflexivity. }
  split; [rewrite Hfst; exact Hout|]. split; [exact Hreq|].
  split; [|reflexivity].
  rewrite Hreq, nth_error_map. unfold pages_upto.
  rewrite nth_error_map.
  replace (Z.to_nat (Z.of_nat fuel + 1)) with (501 + extra_fuel)%nat
    by (unfold fuel; lia).
  rewrite nth_error_seq.
  replace (Nat.ltb 500 (501 + extra_fuel)) with true
    by (symmetry; apply Nat.ltb_lt; lia).
  reflexivity.
Qed.

(** ** Entry point *)

Lemma fetch_loop_missing_token (rt : Runtime) (env : Env) (fuel : nat)
  (endpoint : string) (extra : dict) (max_pages : option Z) (page : Z)
  (acc : list pyval) (st : state) :
  token_missing env = true ->
  fetch_loop rt env fuel endpoint extra max_pages page acc st
  = (Raise (RuntimeError "TMDB_API_TOKEN environment variable is required"),
     add_log st "ERROR" "TMDB_API_TOKEN environment variable is not set").
Proof.
  intros Htok.
  destruct fuel; cbn [fetch_loop]; unfold bind at 1;
    rewrite (make_request_missing_token rt env endpoint _ st Htok);
    reflexivity.
Qed.

Lemma fetch_all_pages_missing_token (rt : Runtime) (env : Env) (fuel : nat)
  (endpoint : string) (extra_params : option dict) (max_pages : option Z)
  (st : state) :
  token_missing env = true ->
  fetch_all_pages rt env fuel endpoint extra_params max_pages st
  = (Raise (RuntimeError "TMDB_API_TOKEN environment variable is required"),
     add_log st "ERROR" "TMDB_API_TOKEN environment variable is not set").
Proof.
  intros Htok. unfold fetch_all_pages. unfold bind at 1.
  rewrite (fetch_loop_missing_token rt env fuel endpoint
             (default_dict extra_params) max_pages 1 [] st Htok).
  reflexivity.
Qed.

Lemma lambda_handler_missing_token (rt : Runtime) (env : Env) (fuel : nat)
  (event context : pyval) (st : state) :
  token_missing env = true ->
  lambda_handler rt env fuel event context st
  = (Raise (RuntimeError "TMDB_API_TOKEN environment variable is required"),
     add_log (add_log st "INFO" "TMDB Lambda execution started")
       "ERROR" "TMDB_API_TOKEN environment variable is not set").
Proof.
  intros Htok. unfold lambda_handler.
  unfold bind at 1. unfold logger_info at 1, log at 1. cbv iota beta.
  unfold bind at 1. fold (add_log st "INFO" "TMDB Lambda execution started").
  rewrite (fetch_all_pages_missing_token rt env fuel "/movie/top_rated"
             (Some [("language", PyStr "en-US")]) None
             (add_log st "INFO" "TMDB Lambda execution started") Htok).
  reflexivity.
Qed.

(** C7: without a token every invocation raises the configuration error
    and has handed nothing to [urlopen] and written nothing to the store. *)
Theorem lambda_handler_requires_token (rt : Runtime) (env : Env) (fuel : nat)
  (event context : pyval) (st : state) :
  TMDB_API_TOKEN env = None ->
  let r := lambda_handler rt env fuel event context st in
  fst r = Raise (RuntimeError "TMDB_API_TOKEN environment variable is required")
  /\ st_net (snd r) = st_net st
  /\ st_s3 (snd r) = st_s3 st.
Proof.
  intros Hnone r. subst r.
  assert (Htok : token_missing env = true)
    by (unfold token_missing; rewrite Hnone; reflexivity).
  rewrite (lambda_handler_missing_token rt env fuel event context st Htok).
  split; [reflexivity|]. split; reflexivity.
Qed.

Lemma lambda_handler_requires_token_witness :
  let r := lambda_handler demo_rt no_token_env 3 PyNone PyNone init_state in
  fst r = Raise (RuntimeError "TMDB_API_TOKEN environment variable is required")
  /\ st_net (snd r) = []
  /\ st_s3 (snd r) = [].
Proof.
  exact (lambda_handler_requires_token demo_rt no_token_env 3 PyNone PyNone
           init_state eq_refl).
Defined.

Section Uploads.
Context {A B : Type}.
Variable Ok : S3Put -> Prop.



End Uploads.





(** ** Entry point: the two halves of an invocation *)

Lemma new_objects_app (st st' : state) (objs : list S3Put) :
  st_s3 st' = st_s3 st ++ objs -> new_objects st st' = objs.
Proof. intros H. unfold new_objects. rewrite H. apply skipn_length_app. Qed.

Lemma new_calls_app (st st' : state) (l : list call) :
  st_calls st' = st_calls st ++ l -> new_calls st st' = l.
Proof. intros H. unfold new_calls. rewrite H. apply skipn_length_app. Qed.

Lemma not_return_raise {A : Type} (e : exn) : ~ is_return (@Raise A e).
Proof. intros (a & Ha). discriminate Ha. Qed.

Lemma not_return_out_of_fuel {A : Type} : ~ is_return (@OutOfFuel A).
Proof. intros (a & Ha). discriminate Ha. Qed.

Lemma lift_return {A : Type} (o : outcome A) (st st1 : state) (a : A) :
  lift o st = (Return a, st1) -> o = Return a /\ st1 = st.
Proof. unfold lift. intros [= -> ->]. split; reflexivity. Qed.

Lemma only_asked_refl (st : state) : only_asked st st.
Proof. exists []. cbn [map]. rewrite !app_nil_r. repeat split. Qed.

Lemma only_asked_trans (st1 st2 st3 : state) :
  only_asked st1 st2 -> only_asked st2 st3 -> only_asked st1 st3.
Proof.
  intros (l & Hn & Hc & Hs) (l' & Hn' & Hc' & Hs'). exists (l ++ l').
  rewrite Hn', Hn, Hc', Hc, Hs', Hs, map_app, !app_assoc. repeat split.
Qed.

Section Asks.
Context {A B : Type}.

Lemma asks_ret (a : A) : asks (ret a).
Proof. intros st. apply only_asked_refl. Qed.

Lemma asks_raise (e : exn) : asks (@raise A e).
Proof. intros st. apply only_asked_refl. Qed.

Lemma asks_out_of_fuel : asks (@out_of_fuel A).
Proof. intros st. apply only_asked_refl. Qed.

Lemma asks_lift (o : outcome A) : asks (lift o).
Proof. intros st. apply only_asked_refl. Qed.

Lemma asks_bind (m : M A) (k : A -> M B) :
  asks m -> (forall a, asks (k a)) -> asks (bind m k).
Proof.
  intros Hm Hk st. pose proof (Hm st) as H1. unfold bind.
  destruct (m st) as [[a | e | ] st1]; cbn [snd] in *; try exact H1.
  exact (only_asked_trans _ _ _ H1 (Hk a st1)).
Qed.
End Asks.

Lemma asks_log (level msg : string) : asks (log level msg).
Proof.
  intros st. exists []. cbn. rewrite !app_nil_r. repeat split.
Qed.

Lemma asks_try_reraise {A : Type} (catches : exn -> bool) (m : M A)
  (handler : exn -> M unit) :
  asks m -> (forall e, asks (handler e)) ->
  asks (try_reraise catches m handler).
Proof.
  intros Hm Hh st. pose proof (Hm st) as H1. unfold try_reraise.
  destruct (m st) as [[a | e | ] st1]; cbn [snd] in *; try exact H1.
  destruct (catches e); [|exact H1].
  apply (only_asked_trans _ _ _ H1).
  apply (asks_bind (handler e) (fun _ => raise e)); [apply Hh|].
  intros _. apply asks_raise.
Qed.

Lemma asks_do_urlopen (env : Env) (request : Request) :
  asks (do_urlopen env request).
Proof.
  intros st. exists [request]. unfold do_urlopen.
  destruct (urlopen env (List.length (st_net st)) request)
    as [e | [status body]];
    [|destruct ((200 <=? status) && (status <? 300))%bool];
    repeat split.
Qed.

Ltac asks_steps :=
  repeat first
    [ apply asks_ret | apply asks_raise | apply asks_out_of_fuel
    | apply asks_lift | apply asks_log | apply asks_do_urlopen
    | apply asks_try_reraise
    | apply asks_bind
    | match goal with
      | |- asks (if ?b then _ else _) => destruct b
      | |- forall _, _ => intro
      end ].

Lemma asks_make_request (rt : Runtime) (env : Env) (endpoint : string)
  (params : option dict) :
  asks (_make_tmdb_request rt env endpoint params).
Proof. unfold _make_tmdb_request. asks_steps. Qed.

Lemma asks_fetch_loop (rt : Runtime) (env : Env) (endpoint : string)
  (extra : dict) (max_pages : option Z) (fuel : nat) :
  forall (page : Z) (acc : list pyval),
    asks (fetch_loop rt env fuel endpoint extra max_pages page acc).
Proof.
  induction fuel as [|fuel IH]; intros page acc; cbn [fetch_loop];
    asks_steps; try apply asks_make_request; asks_steps.
  apply IH.
Qed.

Lemma asks_fetch_all_pages (rt : Runtime) (env : Env) (fuel : nat)
  (endpoint : string) (extra_params : option dict) (max_pages : option Z) :
  asks (fetch_all_pages rt env fuel endpoint extra_params max_pages).
Proof.
  unfold fetch_all_pages. apply asks_bind; [apply asks_fetch_loop|].
  asks_steps.
Qed.

Lemma asks_fetch_genres (rt : Runtime) (env : Env) :
  asks (fetch_genres rt env).
Proof.
  unfold fetch_genres. apply asks_bind; [apply asks_make_request|].
  asks_steps.
Qed.

(** Fetching only asks: after it the store is as it was. *)
Lemma fetched_only_asked (rt : Runtime) (env : Env) (fuel : nat)
  (st st3 : state) (top up : list pyval) (genres : pyval) :
  fetched rt env fuel st top up genres st3 -> only_asked st st3.
Proof.
  intros (st1 & st2 & H1 & H2 & H3).
  pose proof (asks_fetch_all_pages rt env fuel "/movie/top_rated"
                (Some [("language", PyStr "en-US")]) None
                (add_log st "INFO" "TMDB Lambda execution started")) as A1.
  pose proof (asks_fetch_all_pages rt env fuel "/movie/upcoming"
                (Some [("language", PyStr "en-US")]) None st1) as A2.
  pose proof (asks_fetch_genres rt env st2) as A3.
  rewrite H1 in A1. rewrite H2 in A2. rewrite H3 in A3. cbn [snd] in *.
  apply (only_asked_trans _ _ _
           (asks_log "INFO" "TMDB Lambda execution started" st)).
  apply (only_asked_trans _ _ _ A1). exact (only_asked_trans _ _ _ A2 A3).
Qed.

(** One stage of the first half: it only asks, and when it fails the
    invocation fails with it. *)
Lemma stage {A B : Type} (m : M A) (k : A -> M B) (st s : state) (G : Prop) :
  asks m -> only_asked st s ->
  (forall a s1, m s = (Return a, s1) -> only_asked st s1 ->
     (~ is_return (fst (k a s1)) /\ only_asked st (snd (k a s1))) \/ G) ->
  (~ is_return (fst (bind m k s)) /\ only_asked st (snd (bind m k s))) \/ G.
Proof.
  intros Hm Hp Hk. pose proof (Hm s) as Hs. unfold bind.
  destruct (m s) as [[a | e | ] s1] eqn:Heq; cbn [fst snd] in *.
  - apply (Hk a s1 eq_refl). exact (only_asked_trans _ _ _ Hp Hs).
  - left. split; [apply not_return_raise|].
    exact (only_asked_trans _ _ _ Hp Hs).
  - left. split; [apply not_return_out_of_fuel|].
    exact (only_asked_trans _ _ _ Hp Hs).
Qed.

(** An invocation either fails while it fetches and maps, having only
    asked, or has fetched the three datasets and mapped every record. *)
Lemma lambda_handler_cases (rt : Runtime) (env : Env) (fuel : nat)
  (event context : pyval) (st : state) :
  let r := lambda_handler rt env fuel event context st in
  (~ is_return (fst r) /\ only_asked st (snd r))
  \/ exists (top up : list pyval) (genres : pyval) (st3 : state)
       (rows1 rows2 : list (list pyval)) (items : list pyval)
       (rows3 : list (list pyval)),
       fetched rt env fuel st top up genres st3
       /\ comprehension (movie_to_row rt) top = Return rows1
       /\ comprehension (movie_to_row rt) up = Return rows2
       /\ py_iter genres = Return items
       /\ comprehension genre_to_row items = Return rows3.
Proof.
  cbv zeta. unfold lambda_handler.
  apply stage; [apply asks_log | apply only_asked_refl |].
  intros u st0 H0 _. injection H0 as _ H0.
  apply stage; [apply asks_fetch_all_pages | rewrite <- H0; apply asks_log |].
  intros top st1 H1 P1.
  apply stage; [apply asks_fetch_all_pages | exact P1 |].
  intros up st2 H2 P2.
  apply stage; [apply asks_fetch_genres | exact P2 |].
  intros genres st3 H3 P3.
  apply stage; [apply asks_lift | exact P3 |].
  intros rows1 s4 H4 P4. apply lift_return in H4. destruct H4 as [H4 ->].
  apply stage; [apply asks_lift | exact P4 |].
  intros rows2 s5 H5 P5. apply lift_return in H5. destruct H5 as [H5 ->].
  apply stage; [apply asks_lift | exact P5 |].
  intros items s6 H6 P6. apply lift_return in H6. destruct H6 as [H6 ->].
  apply stage; [apply asks_lift | exact P6 |].
  intros rows3 s7 H7 P7. apply lift_return in H7. destruct H7 as [H7 ->].
  right. exists top, up, genres, st3, rows1, rows2, items, rows3.
  split; [|repeat split; assumption].
  exists st1, st2. subst st0. repeat split; assumption.
Qed.

(** Once the datasets are fetched and mapped, what is left of the
    invocation is the three uploads, the last log record and the return. *)
Lemma lambda_handler_fetched (rt : Runtime) (env : Env) (fuel : nat)
  (event context : pyval) (st st3 : state) (top up : list pyval)
  (genres : pyval) (rows1 rows2 : list (list pyval)) (items : list pyval)
  (rows3 : list (list pyval)) :
  fetched rt env fuel st top up genres st3 ->
  comprehension (movie_to_row rt) top = Return rows1 ->
  comprehension (movie_to_row rt) up = Return rows2 ->
  py_iter genres = Return items ->
  comprehension genre_to_row items = Return rows3 ->
  exists summary : pyval,
    lambda_handler rt env fuel event context st
    = (write_csv_to_s3 rt env TOP_RATED_KEY (map PyStr movie_header) rows1 ;;;
       write_csv_to_s3 rt env UPCOMING_KEY (map PyStr movie_header) rows2 ;;;
       write_csv_to_s3 rt env GENRES_KEY (map PyStr genres_header) rows3 ;;;
       logger_info "TMDB Lambda execution completed successfully" ;;;
       ret summary) st3.
Proof.
  intros (st1 & st2 & H1 & H2 & H3) Hrows1 Hrows2 Hitems Hrows3.
  eexists. unfold lambda_handler.
  unfold bind at 1. unfold logger_info at 1, log at 1. cbv iota beta.
  fold (add_log st "INFO" "TMDB Lambda execution started").
  unfold bind at 1. rewrite H1.
  unfold bind at 1. rewrite H2.
  unfold bind at 1. rewrite H3.
  unfold bind at 1, lift at 1. rewrite Hrows1.
  unfold bind at 1, lift at 1. rewrite Hrows2.
  unfold bind at 1, lift at 1. rewrite Hitems.
  unfold bind at 1, lift at 1. rewrite Hrows3.
  reflexivity.
Qed.

(** One upload followed by the rest: the call is made, and the rest runs
    only when the store has accepted the object. *)
Lemma write_then {B : Type} (rt : Runtime) (env : Env) (key : string)
  (header : list string) (rows : list (list pyval)) (k : M B) (st : state) :
  let obj := table_object rt key header rows in
  let r := (write_csv_to_s3 rt env key (map PyStr header) rows ;;; k) st in
  match put_object env (List.length (st_s3 st)) obj with
  | Some e =>
      fst r = Raise e
      /\ st_net (snd r) = st_net st
      /\ st_s3 (snd r) = st_s3 st
      /\ st_calls (snd r) = st_calls st ++ [PutObject obj]
  | None =>
      exists st1 : state,
        r = k st1
        /\ st_net st1 = st_net st
        /\ st_s3 st1 = st_s3 st ++ [obj]
        /\ st_calls st1 = st_calls st ++ [PutObject obj]
  end.
Proof.
  cbv zeta.
  unfold write_csv_to_s3, bind, logger_info, log, do_put_object, table_object.
  cbn [st_s3 st_net st_log st_calls].
  destruct (put_object env (List.length (st_s3 st)) _).
  - repeat split.
  - eexists. split; [reflexivity|]. repeat split.
Qed.

Lemma length_snoc {X : Type} (l : list X) (x : X) :
  List.length (l ++ [x]) = S (List.length l).
Proof. rewrite length_app. cbn. lia. Qed.

(** The second half of an invocation: the three tables are offered to the
    store in order until one is rejected; the invocation returns when all
    three are accepted and raises the exception of the store otherwise. *)
Lemma store_tables_run (rt : Runtime) (env : Env)
  (rows1 rows2 rows3 : list (list pyval)) (summary : pyval) (st3 : state) :
  let tables :=
    [ table_object rt TOP_RATED_KEY movie_header rows1;
      table_object rt UPCOMING_KEY movie_header rows2;
      table_object rt GENRES_KEY genres_header rows3 ] in
  let r :=
    (write_csv_to_s3 rt env TOP_RATED_KEY (map PyStr movie_header) rows1 ;;;
     write_csv_to_s3 rt env UPCOMING_KEY (map PyStr movie_header) rows2 ;;;
     write_csv_to_s3 rt env GENRES_KEY (map PyStr genres_header) rows3 ;;;
     logger_info "TMDB Lambda execution completed successfully" ;;;
     ret summary) st3 in
  let kept := store_accepts env (List.length (st_s3 st3)) tables in
  st_net (snd r) = st_net st3
  /\ st_s3 (snd r) = st_s3 st3 ++ fst kept
  /\ st_calls (snd r)
     = st_calls st3
         ++ map PutObject (firstn (S (List.length (fst kept))) tables)
  /\ match snd kept with
     | Some e => fst r = Raise e
     | None => fst r = Return summary
     end.
Proof.
  cbv zeta. cbn [store_accepts].
  match goal with
  | |- context [(write_csv_to_s3 rt env TOP_RATED_KEY _ _ ;;; ?k) st3] =>
      pose proof (write_then rt env TOP_RATED_KEY movie_header rows1 k st3)
        as W1
  end.
  cbv zeta in W1.
  destruct (put_object env (List.length (st_s3 st3))
              (table_object rt TOP_RATED_KEY movie_header rows1)) as [e1|].
  { destruct W1 as (Hf & Hn & Hs & Hc). cbn [fst snd List.length firstn map].
    rewrite Hf, Hn, Hs, Hc, app_nil_r. repeat split. }
  destruct W1 as (st4 & -> & Hn4 & Hs4 & Hc4).
  match goal with
  | |- context [(write_csv_to_s3 rt env UPCOMING_KEY _ _ ;;; ?k) st4] =>
      pose proof (write_then rt env UPCOMING_KEY movie_header rows2 k st4)
        as W2
  end.
  cbv zeta in W2.
  assert (L4 : List.length (st_s3 st4) = S (List.length (st_s3 st3)))
    by (rewrite Hs4; apply length_snoc).
  rewrite L4 in W2.
  destruct (put_object env (S (List.length (st_s3 st3)))
              (table_object rt UPCOMING_KEY movie_header rows2)) as [e2|].
  { destruct W2 as (Hf & Hn & Hs & Hc). cbn [fst snd List.length firstn map].
    rewrite Hf, Hn, Hs, Hc, Hn4, Hs4, Hc4, <- app_assoc. repeat split. }
  destruct W2 as (st5 & -> & Hn5 & Hs5 & Hc5).
  match goal with
  | |- context [(write_csv_to_s3 rt env GENRES_KEY _ _ ;;; ?k) st5] =>
      pose proof (write_then rt env GENRES_KEY genres_header rows3 k st5)
        as W3
  end.
  cbv zeta in W3.
  assert (L5 : List.length (st_s3 st5) = S (S (List.length (st_s3 st3))))
    by (rewrite Hs5, length_snoc, L4; reflexivity).
  rewrite L5 in W3.
  destruct (put_object env (S (S (List.length (st_s3 st3))))
              (table_object rt GENRES_KEY genres_header rows3)) as [e3|].
  { destruct W3 as (Hf & Hn & Hs & Hc). cbn [fst snd List.length firstn map].
    rewrite Hf, Hn, Hs, Hc, Hn5, Hc5, Hs5, Hn4, Hc4, Hs4, <- !app_assoc.
    repeat split. }
  destruct W3 as (st6 & -> & Hn6 & Hs6 & Hc6).
  cbn [fst snd List.length firstn map].
  unfold bind, logger_info, log, ret. cbn [fst snd st_net st_s3 st_calls].
  rewrite Hn6, Hs6, Hc6, Hn5, Hc5, Hs5, Hn4, Hc4, Hs4, <- !app_assoc.
  repeat split.
Qed.

(** The store keeps none, one, two or all of three objects. *)
Lemma store_accepts_three (env : Env) (n : nat) (T1 T2 T3 : S3Put) :
  let kept := store_accepts env n [T1; T2; T3] in
  (exists e, kept = ([], Some e))
  \/ (exists e, kept = ([T1], Some e))
  \/ (exists e, kept = ([T1; T2], Some e))
  \/ kept = ([T1; T2; T3], None).
Proof.
  cbn [store_accepts].
  destruct (put_object env n T1) as [e1|]; [left; exists e1; reflexivity|].
  destruct (put_object env (S n) T2) as [e2|];
    [right; left; exists e2; reflexivity|].
  destruct (put_object env (S (S n)) T3) as [e3|];
    [right; right; left; exists e3; reflexivity|].
  right. right. right. reflexivity.
Qed.









(** * Further properties *)

(** ** API client: failures *)

(** X1: when [urlopen] raises, the client logs the failure and re-raises
    the very same exception; it has sent that one request and does not
    retry. *)
Theorem make_request_transport_error (rt : Runtime) (env : Env)
  (endpoint : string) (params : option dict) (st : state) (e : exn) :
  let request := build_request rt env endpoint (default_dict params) in
  token_missing env = false ->
  urlopen env (List.length (st_net st)) request = inl e ->
  let r := _make_tmdb_request rt env endpoint params st in
  fst r = Raise e
  /\ new_requests st (snd r) = [request]
  /\ new_log st (snd r)
     = [ ("INFO", "Requesting TMDB URL: " +++ req_url request);
         ("ERROR", "HTTP request to TMDB failed: " +++ exn_text e) ]
  /\ st_s3 (snd r) = st_s3 st.
Proof.
  intros request Htok Hopen r. subst r.
  unfold _make_tmdb_request. rewrite Htok. fold request.
  unfold bind, try_reraise, do_urlopen, logger_info, logger_error, log, raise.
  cbn [st_net st_log st_s3]. rewrite Hopen.
  unfold bind, raise. cbn [fst snd st_net st_log st_s3].
  unfold new_requests, new_log. cbn [st_net st_log].
  rewrite <- app_assoc, !skipn_length_app. repeat split.
Qed.

Lemma make_request_transport_error_witness :
  let r := _make_tmdb_request demo_rt unreachable_env "/movie/top_rated" en_US
             init_state in
  fst r = Raise (URLError "<urlopen error [Errno 111] Connection refused>")
  /\ List.length (new_requests init_state (snd r)) = 1%nat
  /\ List.length (new_log init_state (snd r)) = 2%nat.
Proof.
  destruct (make_request_transport_error demo_rt unreachable_env
              "/movie/top_rated" en_US init_state
              (URLError "<urlopen error [Errno 111] Connection refused>")
              eq_refl eq_refl) as (Hr & Hreq & Hlog & _).
  cbv zeta. rewrite Hr, Hreq, Hlog. repeat split.
Defined.

(** X2: when a 2xx body does not decode, the client re-raises the decoder's
    exception after one request; the body is written to the error log only
    when the exception is a [JSONDecodeError]. *)
Theorem make_request_undecodable (rt : Runtime) (env : Env)
  (endpoint : string) (params : option dict) (st : state) (status : Z)
  (body : string) (e : exn) :
  let request := build_request rt env endpoint (default_dict params) in
  token_missing env = false ->
  urlopen env (List.length (st_net st)) request = inr (status, body) ->
  200 <= status < 300 ->
  json_loads rt body = Raise e ->
  let r := _make_tmdb_request rt env endpoint params st in
  fst r = Raise e
  /\ new_requests st (snd r) = [request]
  /\ new_log st (snd r)
     = ("INFO", "Requesting TMDB URL: " +++ req_url request)
       :: (if is_JSONDecodeError e
           then [ ("ERROR", "Failed to parse TMDB response as JSON: "
                              +++ exn_text e +++ ", body: " +++ body) ]
           else []).
Proof.
  intros request Htok Hopen Hstatus Hjson r. subst r.
  unfold _make_tmdb_request. rewrite Htok. fold request.
  unfold bind, try_reraise, do_urlopen, logger_info, logger_error, log, raise,
    lift.
  cbn [st_net st_log st_s3]. rewrite Hopen, (status_2xx status Hstatus).
  cbn [fst snd].
  replace ((status <? 200) || (status >=? 300))%bool with false
    by (symmetry; apply orb_false_iff; lia).
  rewrite Hjson. unfold new_requests, new_log.
  destruct (is_JSONDecodeError e); unfold bind, raise;
    cbn [fst snd st_net st_log];
    rewrite <- ?app_assoc, !skipn_length_app; repeat split.
Qed.

Lemma make_request_undecodable_witness :
  let r := _make_tmdb_request demo_rt (status_env 200 "<html>")
             "/movie/top_rated" en_US init_state in
  fst r = Raise (JSONDecodeError "Expecting value: line 1 column 1 (char 0)")
  /\ nth_error (new_log init_state (snd r)) 1
     = Some ("ERROR",
             "Failed to parse TMDB response as JSON: Expecting value: line 1 column 1 (char 0), body: <html>").
Proof.
  destruct (make_request_undecodable demo_rt (status_env 200 "<html>")
              "/movie/top_rated" en_US init_state 200 "<html>"
              (JSONDecodeError "Expecting value: line 1 column 1 (char 0)")
              eq_refl eq_refl ltac:(lia) eq_refl) as (Hr & _ & Hlog).
  cbv zeta. rewrite Hr, Hlog. split; reflexivity.
Defined.

(** ** Pager: edge cases and failures *)

Lemma fetch_loop_unfold (rt : Runtime) (env : Env) (fuel : nat)
  (endpoint : string) (extra : dict) (max_pages : option Z) (page : Z)
  (acc : list pyval) :
  fetch_loop rt env fuel endpoint extra max_pages page acc
  = (data <- _make_tmdb_request rt env endpoint
               (Some (dict_set extra "page" (PyInt page))) ;;
     results <- lift (py_get data "results" (PyList [])) ;;
     total_pages <- lift (py_get data "total_pages" (PyInt 1)) ;;
     over <- lift (py_gt_int total_pages 500) ;;
     total_pages <- (if over : bool then
                       logger_warning (endpoint +++ ": total_pages "
                                         +++ py_str rt total_pages
                                         +++ " > 500, capping at 500") ;;;
                       ret (PyInt 500)
                     else ret total_pages) ;;
     n <- lift (py_len results) ;;
     logger_info ("Fetched page " +++ int_str page +++ " of "
                    +++ py_str rt total_pages +++ " from " +++ endpoint
                    +++ ", items: " +++ int_str n) ;;;
     items <- lift (py_iter results) ;;
     if reached_max max_pages page then ret (acc ++ items)
     else
       stop <- lift (py_int_ge page total_pages) ;;
       if stop : bool then ret (acc ++ items)
       else
         match fuel with
         | O => out_of_fuel
         | S fuel' =>
             fetch_loop rt env fuel' endpoint extra max_pages (page + 1)
               (acc ++ items)
         end).
Proof. destruct fuel; reflexivity. Qed.





(** X4: a 2xx body that decodes to something other than an object (an
    array, a number, null, ...) makes the pager raise [AttributeError] for
    the missing [get], after the one request for page 1. *)
Theorem fetch_all_pages_non_object (rt : Runtime) (env : Env) (fuel : nat)
  (endpoint : string) (extra_params : option dict) (max_pages : option Z)
  (st : state) (status : Z) (body : string) (data : pyval) :
  token_missing env = false ->
  urlopen env (List.length (st_net st))
    (page_request rt env endpoint extra_params 1) = inr (status, body) ->
  200 <= status < 300 ->
  json_loads rt body = Return data ->
  (forall d, data <> PyDict d) ->
  let r := fetch_all_pages rt env fuel endpoint extra_params max_pages st in
  fst r = Raise (AttributeError
                   ("'" +++ type_name data
                        +++ "' object has no attribute 'get'"))
  /\ new_requests st (snd r) = [ page_request rt env endpoint extra_params 1 ].
Proof.
  intros Htok Hopen Hstatus Hjson Hdata r.
  destruct (fetch_all_pages_of_loop rt env fuel endpoint extra_params
              max_pages st) as (Hfst & Hnet & _).
  fold r in Hfst, Hnet.
  pose proof (make_request_ok rt env endpoint
                (Some (dict_set (default_dict extra_params) "page" (PyInt 1)))
                st status body data Htok Hopen Hstatus Hjson) as Hreq.
  assert (Hrun : fetch_loop rt env fuel endpoint (default_dict extra_params)
                   max_pages 1 [] st
                 = (Raise (AttributeError
                             ("'" +++ type_name data
                                  +++ "' object has no attribute 'get'")),
                    after_request st
                      (page_request rt env endpoint extra_params 1))).
  { rewrite fetch_loop_unfold. unfold bind at 1. rewrite Hreq.
    unfold bind at 1, lift at 1.
    destruct data as [ | | | | | | d]; try reflexivity.
    exfalso. exact (Hdata d eq_refl). }
  rewrite Hrun in Hfst, Hnet. cbn [fst snd after_request st_net] in Hfst, Hnet.
  split; [exact Hfst|]. apply new_requests_app. exact Hnet.
Qed.

Lemma fetch_all_pages_non_object_witness :
  let r := fetch_all_pages edge_rt (status_env 200 "[1, 2]") 3
             "/movie/top_rated" en_US None init_state in
  fst r = Raise (AttributeError "'list' object has no attribute 'get'")
  /\ List.length (new_requests init_state (snd r)) = 1%nat.
Proof.
  destruct (fetch_all_pages_non_object edge_rt (status_env 200 "[1, 2]") 3
              "/movie/top_rated" en_US None init_state 200 "[1, 2]"
              (PyList [PyInt 1; PyInt 2]) eq_refl eq_refl ltac:(lia) eq_refl)
    as (Hr & Hreq); [discriminate|].
  cbv zeta. rewrite Hr, Hreq. split; reflexivity.
Defined.

(** One turn of the loop on a 2xx response that decodes to an object whose
    [results] (or the default) is a list and whose [total_pages] (or the
    default) compares with an int. *)
Lemma fetch_loop_turn_list (rt : Runtime) (env : Env) (fuel : nat)
  (endpoint : string) (extra : dict) (max_pages : option Z) (page : Z)
  (acc : list pyval) (st : state) (status : Z) (body : string) (d : dict)
  (rs : list pyval) (tp : pyval) (over : bool) :
  let request :=
    build_request rt env endpoint (dict_set extra "page" (PyInt page)) in
  token_missing env = false ->
  urlopen env (List.length (st_net st)) request = inr (status, body) ->
  200 <= status < 300 ->
  json_loads rt body = Return (PyDict d) ->
  py_get (PyDict d) "results" (PyList []) = Return (PyList rs) ->
  py_get (PyDict d) "total_pages" (PyInt 1) = Return tp ->
  py_gt_int tp 500 = Return over ->
  exists st1 : state,
    st_net st1 = st_net st ++ [request]
    /\ st_s3 st1 = st_s3 st
    /\ fetch_loop rt env fuel endpoint extra max_pages page acc st
       = if reached_max max_pages page then (Return (acc ++ rs), st1)
         else match py_int_ge page (if over then PyInt 500 else tp) with
              | Return true => (Return (acc ++ rs), st1)
              | Return false =>
                  match fuel with
                  | O => (OutOfFuel, st1)
                  | S fuel' =>
                      fetch_loop rt env fuel' endpoint extra max_pages
                        (page + 1) (acc ++ rs) st1
                  end
              | Raise e => (Raise e, st1)
              | OutOfFuel => (OutOfFuel, st1)
              end.
Proof.
  intros request Htok Hopen Hstatus Hjson Hres Htp Hover.
  pose proof (make_request_ok rt env endpoint
                (Some (dict_set extra "page" (PyInt page))) st status body
                (PyDict d) Htok Hopen Hstatus Hjson) as Hreq.
  cbn [default_dict] in Hreq. fold request in Hreq.
  rewrite fetch_loop_unfold.
  unfold bind at 1. rewrite Hreq.
  unfold bind at 1. unfold lift at 1. rewrite Hres.
  unfold bind at 1. unfold lift at 1. rewrite Htp.
  unfold bind at 1. unfold lift at 1. rewrite Hover.
  destruct over.
  - eexists. split; [|split];
      [| | unfold bind, lift, logger_warning, logger_info, log, ret, out_of_fuel;
           cbn [py_len py_iter st_net st_log st_s3 after_request];
           destruct (reached_max max_pages page); [reflexivity|];
           destruct (py_int_ge page (PyInt 500)) as [[|] | e | ];
           try reflexivity; destruct fuel; reflexivity ].
    + reflexivity.
    + reflexivity.
  - eexists. split; [|split];
      [| | unfold bind, lift, logger_warning, logger_info, log, ret, out_of_fuel;
           cbn [py_len py_iter st_net st_log st_s3 after_request];
           destruct (reached_max max_pages page); [reflexivity|];
           destruct (py_int_ge page tp) as [[|] | e | ];
           try reflexivity; destruct fuel; reflexivity ].
    + reflexivity.
    + reflexivity.
Qed.

(** X5: the defaults of the response fields.  When the first response is an
    object whose [total_pages] is absent (read as 1) or an int not above 1,
    the pager makes exactly one request, whatever [max_pages] and the fuel
    are, and returns the [results] list of that response, or the empty list
    when [results] is absent. *)
Theorem fetch_all_pages_single_page (rt : Runtime) (env : Env) (fuel : nat)
  (endpoint : string) (extra_params : option dict) (max_pages : option Z)
  (st : state) (status : Z) (body : string) (d : dict) :
  token_missing env = false ->
  urlopen env (List.length (st_net st))
    (page_request rt env endpoint extra_params 1) = inr (status, body) ->
  200 <= status < 300 ->
  json_loads rt body = Return (PyDict d) ->
  (dict_get d "results" = None
   \/ exists rs, dict_get d "results" = Some (PyList rs)) ->
  (dict_get d "total_pages" = None
   \/ exists T, dict_get d "total_pages" = Some (PyInt T) /\ T <= 1) ->
  let r := fetch_all_pages rt env fuel endpoint extra_params max_pages st in
  fst r = Return (match dict_get d "results" with
                  | Some (PyList rs) => rs
                  | _ => []
                  end)
  /\ new_requests st (snd r) = [ page_request rt env endpoint extra_params 1 ].
Proof.
  intros Htok Hopen Hstatus Hjson Hres Htot r.
  destruct (fetch_all_pages_of_loop rt env fuel endpoint extra_params
              max_pages st) as (Hfst & Hnet & _).
  fold r in Hfst, Hnet.
  set (rs := match dict_get d "results" with
             | Some (PyList rs) => rs
             | _ => []
             end) in *.
  set (T := match dict_get d "total_pages" with
            | Some (PyInt T) => T
            | _ => 1
            end).
  assert (HT : T <= 1 /\ py_get (PyDict d) "total_pages" (PyInt 1)
                         = Return (PyInt T)).
  { unfold T. cbn [py_get].
    destruct Htot as [-> | (T0 & -> & HT0)]; split; try reflexivity; lia. }
  destruct HT as [HT Htp].
  assert (Hrs : py_get (PyDict d) "results" (PyList []) = Return (PyList rs)).
  { unfold rs. cbn [py_get]. destruct Hres as [-> | (rs0 & ->)]; reflexivity. }
  destruct (fetch_loop_turn_list rt env fuel endpoint
              (default_dict extra_params) max_pages 1 [] st status body d rs
              (PyInt T) (T >? 500) Htok Hopen Hstatus Hjson Hrs Htp eq_refl)
    as (st1 & Hnet1 & _ & Heq).
  assert (Hover : (T >? 500) = false) by (destruct (Z.gtb_spec T 500); lia).
  rewrite Hover in Heq. cbn [py_int_ge app] in Heq.
  assert (Hge : (1 >=? T) = true) by (apply Z.geb_le; lia).
  rewrite Hge in Heq.
  assert (Hrun : fetch_loop rt env fuel endpoint (default_dict extra_params)
                   max_pages 1 [] st = (Return rs, st1))
    by (rewrite Heq; destruct (reached_max max_pages 1); reflexivity).
  rewrite Hrun in Hfst, Hnet. cbn [fst snd] in Hfst, Hnet.
  split; [exact Hfst|]. apply new_requests_app. rewrite Hnet. exact Hnet1.
Qed.

Lemma fetch_all_pages_single_page_witness :
  let r := fetch_all_pages edge_rt (status_env 200 "{}") 0 "/movie/upcoming"
             en_US (Some 7) init_state in
  fst r = Return []
  /\ new_requests init_state (snd r)
     = [ page_request edge_rt (status_env 200 "{}") "/movie/upcoming" en_US 1 ].
Proof.
  apply (fetch_all_pages_single_page edge_rt (status_env 200 "{}") 0
           "/movie/upcoming" en_US (Some 7) init_state 200 "{}" []).
  - reflexivity.
  - reflexivity.
  - lia.
  - reflexivity.
  - left. reflexivity.
  - left. reflexivity.
Defined.

(** ** Pager: termination *)










Section Turn.
Context {A B : Type}.
Variable Cont : Prop.
Variable next : B -> M A.



End Turn.







(** ** Genres, rows and the sink *)

(** X7: [fetch_genres] makes one request, to the genre list with
    [language=en-US] and no page parameter, and returns the [genres] list of
    the decoded object, or the empty list when the object has no [genres]. *)
Theorem fetch_genres_result (rt : Runtime) (env : Env) (st : state)
  (status : Z) (body : string) (d : dict) :
  let request :=
    build_request rt env "/genre/movie/list" [("language", PyStr "en-US")] in
  token_missing env = false ->
  urlopen env (List.length (st_net st)) request = inr (status, body) ->
  200 <= status < 300 ->
  json_loads rt body = Return (PyDict d) ->
  (dict_get d "genres" = None
   \/ exists l, dict_get d "genres" = Some (PyList l)) ->
  let r := fetch_genres rt env st in
  fst r = Return (match dict_get d "genres" with
                  | Some genres => genres
                  | None => PyList []
                  end)
  /\ new_requests st (snd r) = [request]
  /\ req_url request
     = "https://api.themoviedb.org/3/genre/movie/list?language=en-US".
Proof.
  intros request Htok Hopen Hstatus Hjson Hgenres r.
  assert (Hrun : exists st1,
             st_net st1 = st_net st ++ [request]
             /\ r = (Return (match dict_get d "genres" with
                             | Some genres => genres
                             | None => PyList []
                             end), st1)).
  { subst r. unfold fetch_genres. unfold bind at 1.
    rewrite (make_request_ok rt env "/genre/movie/list"
               (Some [("language", PyStr "en-US")]) st status body (PyDict d)
               Htok Hopen Hstatus Hjson).
    cbn [default_dict]. fold request.
    unfold bind, lift, logger_info, log, ret. cbn [py_get].
    destruct Hgenres as [-> | (l & ->)]; cbn [py_len]; eexists;
      (split; [|reflexivity]); reflexivity. }
  destruct Hrun as (st1 & Hnet & ->). cbn [fst snd].
  split; [reflexivity|]. split; [apply new_requests_app; exact Hnet|].
  reflexivity.
Qed.

Lemma fetch_genres_result_witness :
  let r := fetch_genres demo_rt two_page_env init_state in
  fst r = Return (PyList [ PyDict [ ("id", PyInt 28);
                                    ("name", PyStr "Action") ] ])
  /\ List.length (new_requests init_state (snd r)) = 1%nat.
Proof.
  destruct (fetch_genres_result demo_rt two_page_env init_state 200
              body_genres
              [ ("genres", PyList [ PyDict [ ("id", PyInt 28);
                                             ("name", PyStr "Action") ] ]) ]
              eq_refl eq_refl ltac:(lia) eq_refl)
    as (Hr & Hreq & _).
  { right. eexists. reflexivity. }
  cbv zeta. rewrite Hr, Hreq. split; reflexivity.
Defined.

(** X8: the row depends on the ten whitelisted fields only: two objects
    that agree on them (whatever else they hold, [original_title] and
    [overview] included, and in whatever order) give the same row. *)
Theorem movie_to_row_whitelist (rt : Runtime) (d1 d2 : dict) :
  (forall column, In column movie_header ->
                  dict_get d1 column = dict_get d2 column) ->
  movie_to_row rt (PyDict d1) = movie_to_row rt (PyDict d2).
Proof.
  intros Hagree. rewrite !movie_to_row_dict. f_equal.
  apply map_ext_in. intros column Hin.
  unfold movie_cell, field_or_empty, genre_ids_text.
  rewrite (Hagree column Hin).
  rewrite (Hagree "genre_ids") by (cbn; tauto).
  reflexivity.
Qed.

Lemma movie_to_row_whitelist_witness :
  movie_to_row demo_rt
    (PyDict [ ("id", PyInt 5); ("overview", PyStr "A long story");
              ("title", PyStr "X") ])
  = movie_to_row demo_rt
      (PyDict [ ("original_title", PyStr "Y"); ("title", PyStr "X");
                ("id", PyInt 5) ]).
Proof.
  apply (movie_to_row_whitelist demo_rt).
  intros column Hin. cbn in Hin.
  repeat (destruct Hin as [<- | Hin]; [reflexivity|]). contradiction.
Defined.




Lemma write_csv_to_s3_net (rt : Runtime) (env : Env) (key : string)
  (header : list pyval) (rows : list (list pyval)) (st : state) :
  st_net (snd (write_csv_to_s3 rt env key header rows st)) = st_net st.
Proof.
  unfold write_csv_to_s3, bind, logger_info, log, do_put_object.
  cbn [st_s3 st_net st_log].
  destruct (put_object env (List.length (st_s3 st)) _); reflexivity.
Qed.

(** X10: what the sink does with the store's answer, for a table whose
    text is made of code points below 256 (the strings of this file, all of
    which encode to UTF-8; a text with a lone surrogate, on which
    [encode] raises before the upload, is not covered).  If the store
    accepts the upload, the sink returns and the store has gained one
    object, under the given key in the fixed bucket with content type
    [text/csv], whose body reads back as the header and the rows; if the
    store raises, the sink raises the same exception, the store is
    unchanged and no success is logged.  Either way it has called
    [put_object] once and has not touched the network. *)
Theorem write_csv_to_s3_outcome (rt : Runtime) (env : Env) (key : string)
  (header : list pyval) (rows : list (list pyval)) (st : state) :
  let obj := mk_put S3_BUCKET key (utf8_encode (csv_text rt header rows))
               "text/csv" in
  let r := write_csv_to_s3 rt env key header rows st in
  st_net (snd r) = st_net st
  /\ new_calls st (snd r) = [PutObject obj]
  /\ csv_read (put_body obj)
     = map (map (fun v => utf8_encode (csv_field_text rt v))) (header :: rows)
  /\ match put_object env (List.length (st_s3 st)) obj with
     | None =>
         fst r = Return tt
         /\ new_objects st (snd r) = [obj]
         /\ nth_error (new_log st (snd r)) 1
            = Some ("INFO", "Successfully wrote s3://" +++ S3_BUCKET +++ "/"
                              +++ key)
     | Some e =>
         fst r = Raise e
         /\ st_s3 (snd r) = st_s3 st
         /\ List.length (new_log st (snd r)) = 1%nat
     end.
Proof.
  intros obj r. split; [apply write_csv_to_s3_net|].
  split; [|split; [apply csv_read_uploaded|]]; subst r;
    unfold write_csv_to_s3, bind, logger_info, log, do_put_object;
    cbn [st_s3 st_net st_log st_calls]; fold obj;
    unfold new_objects, new_log, new_calls;
    destruct (put_object env (List.length (st_s3 st)) obj);
    cbn [fst snd st_s3 st_log st_calls];
    rewrite <- ?app_assoc, ?skipn_length_app; repeat split.
Qed.

Lemma write_csv_to_s3_outcome_witness :
  let r := write_csv_to_s3 demo_rt read_only_env GENRES_KEY
             [ PyStr "id"; PyStr "name" ] [ [ PyInt 28; PyStr "Action" ] ]
             init_state in
  fst r = Raise AccessDenied /\ st_s3 (snd r) = []
  /\ List.length (new_log init_state (snd r)) = 1%nat.
Proof.
  exact (proj2 (proj2 (proj2 (write_csv_to_s3_outcome demo_rt read_only_env
                                GENRES_KEY [ PyStr "id"; PyStr "name" ]
                                [ [ PyInt 28; PyStr "Action" ] ]
                                init_state)))).
Defined.

(** ** Entry point: requests *)

Lemma sends_of_quiet {A : Type} (P : Request -> Prop) (Q : A -> Prop)
  (m : M A) :
  quiet P Q m -> sends P m.
Proof.
  intros Hm st. destruct (Hm st) as (l & Hnet & Hl & _).
  exists l. split; assumption.
Qed.

Lemma sends_bind {A B : Type} (P : Request -> Prop) (m : M A) (k : A -> M B) :
  sends P m -> (forall a, sends P (k a)) -> sends P (bind m k).
Proof.
  intros Hm Hk st. destruct (Hm st) as (l & Hnet & Hl).
  unfold bind. destruct (m st) as [[a | e | ] st1]; cbn [fst snd] in *.
  - destruct (Hk a st1) as (l' & Hnet' & Hl').
    exists (l ++ l'). rewrite Hnet', Hnet, app_assoc.
    split; [reflexivity|]. apply Forall_app. split; assumption.
  - exists l. split; assumption.
  - exists l. split; assumption.
Qed.

Lemma sends_write (P : Request -> Prop) (rt : Runtime) (env : Env)
  (key : string) (header : list pyval) (rows : list (list pyval)) :
  sends P (write_csv_to_s3 rt env key header rows).
Proof.
  intros st. exists []. rewrite write_csv_to_s3_net, app_nil_r.
  split; [reflexivity|constructor].
Qed.

Lemma build_request_authenticated (rt : Runtime) (env : Env)
  (endpoint : string) (params : dict) :
  token_missing env = false ->
  authenticated env (build_request rt env endpoint params).
Proof.
  intros Htok. unfold authenticated, build_request.
  cbn [req_method req_headers req_url].
  split; [exact Htok|]. split; [reflexivity|]. split; [reflexivity|].
  destruct (str_is_empty (urlencode rt params)).
  - exists endpoint. reflexivity.
  - exists (endpoint +++ "?" +++ urlencode rt params).
    rewrite append_assoc. reflexivity.
Qed.

(** X11: every request an invocation hands to [urlopen], for every
    environment, is a GET under the TMDB base URL that carries
    [Authorization: Bearer <token>] and [Accept: application/json]; none is
    sent without a token. *)
Theorem lambda_handler_requests_authenticated (rt : Runtime) (env : Env)
  (fuel : nat) (event context : pyval) (st : state) :
  Forall (authenticated env)
    (new_requests st (snd (lambda_handler rt env fuel event context st))).
Proof.
  destruct (token_missing env) eqn:Htok.
  - rewrite (lambda_handler_missing_token rt env fuel event context st Htok).
    unfold new_requests. cbn [snd add_log st_net].
    rewrite <- (app_nil_r (st_net st)) at 2. rewrite skipn_length_app.
    constructor.
  - assert (Hpages : forall endpoint extra_params max_pages,
               quiet (authenticated env) any
                 (fetch_all_pages rt env fuel endpoint extra_params max_pages)).
    { intros endpoint extra_params max_pages. unfold fetch_all_pages.
      eapply quiet_bind.
      - apply fetch_loop_invariant with (Inv := any).
        + intros page _. apply build_request_authenticated. exact Htok.
        + intros. exact I.
        + exact I.
      - intros all_results _.
        eapply quiet_bind; [apply quiet_log|]. intros _ _.
        apply quiet_ret. exact I. }
    assert (Hgenres : quiet (authenticated env) any (fetch_genres rt env)).
    { unfold fetch_genres.
      eapply quiet_bind;
        [apply quiet_make_request, build_request_authenticated, Htok|].
      intros data _.
      eapply quiet_bind; [apply quiet_lift|]. intros genres _.
      eapply quiet_bind; [apply quiet_lift|]. intros n _.
      eapply quiet_bind; [apply quiet_log|]. intros _ _.
      apply quiet_ret. exact I. }
    assert (Hsends : sends (authenticated env)
                       (lambda_handler rt env fuel event context)).
    { unfold lambda_handler.
      apply sends_bind; [eapply sends_of_quiet, quiet_log|]. intros _.
      apply sends_bind; [eapply sends_of_quiet, Hpages|]. intros top_rated.
      apply sends_bind; [eapply sends_of_quiet, Hpages|]. intros upcoming.
      apply sends_bind; [eapply sends_of_quiet, Hgenres|]. intros genres.
      apply sends_bind; [eapply sends_of_quiet, quiet_lift|]. intros rows1.
      apply sends_bind; [eapply sends_of_quiet, quiet_lift|]. intros rows2.
      apply sends_bind; [eapply sends_of_quiet, quiet_lift|]. intros items.
      apply sends_bind; [eapply sends_of_quiet, quiet_lift|]. intros rows3.
      apply sends_bind; [apply sends_write|]. intros _.
      apply sends_bind; [apply sends_write|]. intros _.
      apply sends_bind; [apply sends_write|]. intros _.
      apply sends_bind; [eapply sends_of_quiet, quiet_log|]. intros _.
      eapply sends_of_quiet. apply (quiet_ret _ any). exact I. }
    destruct (Hsends st) as (l & Hnet & Hl).
    rewrite (new_requests_app _ _ l Hnet). exact Hl.
Qed.

(** ** Entry point: the order of the calls *)

(** X12: the order of the calls of an invocation.  In the trace of its
    calls to the outside, every request to TMDB comes before every upload:
    the trace is its requests followed by its calls of [put_object].
    Nothing is handed to the store unless the three datasets were fetched
    and every record was mapped to a row.  The objects handed to the store
    are, in this order, the top-rated, the upcoming and the genres object,
    or the first few of them, each for the fixed bucket as [text/csv]; the
    store holds those it accepted, an upload that fails stops the ones
    after it and leaves the ones before it in the store, and the
    invocation returns exactly when all three are uploaded. *)
Theorem lambda_handler_upload_order (rt : Runtime) (env : Env) (fuel : nat)
  (event context : pyval) (st : state) :
  let r := lambda_handler rt env fuel event context st in
  exists (k : nat) (puts : list S3Put),
    new_calls st (snd r)
    = map Urlopen (new_requests st (snd r)) ++ map PutObject puts
    /\ (puts <> [] ->
        exists (top up : list pyval) (genres : pyval) (st3 : state)
          (rows1 rows2 : list (list pyval)) (items : list pyval)
          (rows3 : list (list pyval)),
          fetched rt env fuel st top up genres st3
          /\ comprehension (movie_to_row rt) top = Return rows1
          /\ comprehension (movie_to_row rt) up = Return rows2
          /\ py_iter genres = Return items
          /\ comprehension genre_to_row items = Return rows3)
    /\ map put_key puts
       = firstn (List.length puts)
           [ TOP_RATED_KEY; UPCOMING_KEY; GENRES_KEY ]
    /\ Forall (fun obj => put_bucket obj = S3_BUCKET
                          /\ put_content_type obj = "text/csv") puts
    /\ new_objects st (snd r) = firstn k puts
    /\ (List.length puts <= S k)%nat
    /\ map put_key (new_objects st (snd r))
       = firstn k [ TOP_RATED_KEY; UPCOMING_KEY; GENRES_KEY ]
    /\ (is_return (fst r) <-> k = 3%nat).
Proof.
  intros r.
  pose proof (lambda_handler_cases rt env fuel event context st) as Hcases.
  cbv zeta in Hcases. fold r in Hcases.
  destruct Hcases
    as [[Hnot (l & Hn & Hc & Hs)]
       | (top & up & genres & st3 & rows1 & rows2 & items & rows3
          & Hfetched & Hrows1 & Hrows2 & Hitems & Hrows3)].
  - exists 0%nat, []. rewrite <- (app_nil_r (st_s3 st)) in Hs.
    rewrite (new_requests_app _ _ l Hn), (new_calls_app _ _ _ Hc),
      (new_objects_app _ _ _ Hs).
    cbn [map firstn List.length]. rewrite app_nil_r.
    repeat split; try constructor; try congruence; try lia.
  - destruct (lambda_handler_fetched rt env fuel event context st st3 _ _ _
                _ _ _ _ Hfetched Hrows1 Hrows2 Hitems Hrows3)
      as (summary & Hrun).
    destruct (fetched_only_asked _ _ _ _ _ _ _ _ Hfetched)
      as (l & Hn3 & Hc3 & Hs3).
    pose proof (store_tables_run rt env rows1 rows2 rows3 summary st3)
      as Htail.
    cbv zeta in Htail. rewrite <- Hrun in Htail. fold r in Htail.
    rewrite Hs3, Hn3, Hc3, <- app_assoc in Htail.
    assert (Hgate :
              exists (top up : list pyval) (genres : pyval) (st3 : state)
                (rows1 rows2 : list (list pyval)) (items : list pyval)
                (rows3 : list (list pyval)),
                fetched rt env fuel st top up genres st3
                /\ comprehension (movie_to_row rt) top = Return rows1
                /\ comprehension (movie_to_row rt) up = Return rows2
                /\ py_iter genres = Return items
                /\ comprehension genre_to_row items = Return rows3).
    { exists top, up, genres, st3, rows1, rows2, items, rows3.
      repeat split; assumption. }
    destruct (store_accepts_three env (List.length (st_s3 st))
                (table_object rt TOP_RATED_KEY movie_header rows1)
                (table_object rt UPCOMING_KEY movie_header rows2)
                (table_object rt GENRES_KEY genres_header rows3))
      as [(e & Hk) | [(e & Hk) | [(e & Hk) | Hk]]];
      cbv zeta in Hk; rewrite Hk in Htail;
      cbn [fst snd List.length firstn] in Htail;
      destruct Htail as (Hn & Hs & Hc & Hout);
      [ exists 0%nat,
          [ table_object rt TOP_RATED_KEY movie_header rows1 ]
      | exists 1%nat,
          [ table_object rt TOP_RATED_KEY movie_header rows1;
            table_object rt UPCOMING_KEY movie_header rows2 ]
      | exists 2%nat,
          [ table_object rt TOP_RATED_KEY movie_header rows1;
            table_object rt UPCOMING_KEY movie_header rows2;
            table_object rt GENRES_KEY genres_header rows3 ]
      | exists 3%nat,
          [ table_object rt TOP_RATED_KEY movie_header rows1;
            table_object rt UPCOMING_KEY movie_header rows2;
            table_object rt GENRES_KEY genres_header rows3 ] ];
      rewrite (new_requests_app _ _ l Hn), (new_calls_app _ _ _ Hc),
        (new_objects_app _ _ _ Hs);
      (split; [reflexivity|]); (split; [intros _; exact Hgate|]);
      (split; [reflexivity|]);
      (split; [repeat constructor|]); (split; [reflexivity|]);
      (split; [cbn [List.length]; lia|]); (split; [reflexivity|]);
      rewrite Hout; split; intros H;
      try discriminate H; try (destruct (not_return_raise _ H));
      try reflexivity.
    exists summary. reflexivity.
Qed.

(** The handler against a store that rejects the second upload: the four
    requests come first, then the two calls of [put_object]; the top-rated
    object stays in the store and the exception of the store comes out. *)
Lemma lambda_handler_upload_order_witness :
  let r := lambda_handler demo_rt second_put_fails_env 4 PyNone PyNone
             init_state in
  fst r = Raise AccessDenied
  /\ map put_key (new_objects init_state (snd r)) = [ TOP_RATED_KEY ]
  /\ List.length (new_requests init_state (snd r)) = 4%nat
  /\ exists (k : nat) (puts : list S3Put),
       new_calls init_state (snd r)
       = map Urlopen (new_requests init_state (snd r)) ++ map PutObject puts
       /\ new_objects init_state (snd r) = firstn k puts
       /\ (is_return (fst r) <-> k = 3%nat).
Proof.
  cbv zeta. split; [vm_compute; reflexivity|].
  split; [vm_compute; reflexivity|]. split; [vm_compute; reflexivity|].
  destruct (lambda_handler_upload_order demo_rt second_put_fails_env 4 PyNone
              PyNone init_state)
    as (k & puts & Hcalls & _ & _ & _ & Hobjs & _ & _ & Hiff).
  exists k, puts. repeat split; try assumption; apply Hiff.
Defined.

(** ** Entry point: the returned summary *)

Lemma bind_return {A B : Type} (m : M A) (k : A -> M B) (st st2 : state)
  (b : B) :
  bind m k st = (Return b, st2) ->
  exists (a : A) (st1 : state), m st = (Return a, st1) /\ k a st1 = (Return b, st2).
Proof.
  unfold bind. destruct (m st) as [[a | e | ] st1]; try discriminate.
  intros H. exists a, st1. split; [reflexivity|exact H].
Qed.

Lemma quiet_return_s3 {A : Type} (P : Request -> Prop) (Q : A -> Prop)
  (m : M A) (st st1 : state) (o : outcome A) :
  quiet P Q m -> m st = (o, st1) -> st_s3 st1 = st_s3 st.
Proof.
  intros Hm Heq. destruct (Hm st) as (_ & _ & _ & Hs3 & _).
  rewrite Heq in Hs3. exact Hs3.
Qed.

Lemma write_return (rt : Runtime) (env : Env) (key : string)
  (header : list pyval) (rows : list (list pyval)) (st st1 : state) (u : unit) :
  write_csv_to_s3 rt env key header rows st = (Return u, st1) ->
  st_s3 st1
  = st_s3 st
      ++ [ mk_put S3_BUCKET key (utf8_encode (csv_text rt header rows))
             "text/csv" ].
Proof.
  intros Heq.
  destruct (write_csv_to_s3_effect rt env key header rows st)
    as [[_ Hs3] | [Hnot _]]; rewrite Heq in *; cbn [fst snd] in *.
  - exact Hs3.
  - destruct u. congruence.
Qed.

Lemma data_rows_written (rt : Runtime) (key : string) (header : list pyval)
  (rows : list (list pyval)) :
  data_rows (mk_put S3_BUCKET key (utf8_encode (csv_text rt header rows))
               "text/csv")
  = Z.of_nat (List.length rows).
Proof.
  unfold data_rows. cbn [put_body]. rewrite csv_read_uploaded.
  cbn [map List.length]. rewrite length_map. lia.
Qed.

(** X13: when an invocation returns, it has uploaded exactly the three
    objects, and what it returns is the status 200 with the serialised
    summary: the bucket, the three keys, and for each object the number of
    data rows its body holds. *)
Theorem lambda_handler_summary (rt : Runtime) (env : Env) (fuel : nat)
  (event context : pyval) (st : state) (v : pyval) :
  let r := lambda_handler rt env fuel event context st in
  fst r = Return v ->
  exists top_rated upcoming genres : S3Put,
    new_objects st (snd r) = [ top_rated; upcoming; genres ]
    /\ map put_key [ top_rated; upcoming; genres ]
       = [ TOP_RATED_KEY; UPCOMING_KEY; GENRES_KEY ]
    /\ v = PyDict
             [ ("statusCode", PyInt 200);
               ("body",
                PyStr
                  (json_dumps rt
                     (PyDict
                        [ ("message",
                           PyStr "TMDB data fetched and stored in S3 successfully");
                          ("bucket", PyStr S3_BUCKET);
                          ("keys", PyList [ PyStr TOP_RATED_KEY;
                                            PyStr UPCOMING_KEY;
                                            PyStr GENRES_KEY ]);
                          ("top_rated_count", PyInt (data_rows top_rated));
                          ("upcoming_count", PyInt (data_rows upcoming));
                          ("genres_count", PyInt (data_rows genres)) ]))) ].
Proof.
  intros r Hv. subst r.
  destruct (lambda_handler rt env fuel event context st) as [o st'] eqn:Hrun.
  cbn [fst snd] in *. subst o. unfold lambda_handler in Hrun.
  apply bind_return in Hrun. destruct Hrun as (u0 & s0 & H0 & Hrun).
  apply bind_return in Hrun. destruct Hrun as (top & s1 & H1 & Hrun).
  apply bind_return in Hrun. destruct Hrun as (up & s2 & H2 & Hrun).
  apply bind_return in Hrun. destruct Hrun as (gs & s3 & H3 & Hrun).
  apply bind_return in Hrun. destruct Hrun as (rows1 & s4 & H4 & Hrun).
  apply bind_return in Hrun. destruct Hrun as (rows2 & s5 & H5 & Hrun).
  apply bind_return in Hrun. destruct Hrun as (items & s6 & H6 & Hrun).
  apply bind_return in Hrun. destruct Hrun as (rows3 & s7 & H7 & Hrun).
  apply bind_return in Hrun. destruct Hrun as (u8 & s8 & H8 & Hrun).
  apply bind_return in Hrun. destruct Hrun as (u9 & s9 & H9 & Hrun).
  apply bind_return in Hrun. destruct Hrun as (u10 & s10 & H10 & Hrun).
  apply bind_return in Hrun. destruct Hrun as (u11 & s11 & H11 & Hrun).
  unfold ret in Hrun. injection Hrun as <- <-.
  apply (quiet_return_s3 any any _ _ _ _ (quiet_log any _ _)) in H0.
  apply (quiet_return_s3 _ _ _ _ _ _
           (fetch_all_pages_quiet rt env fuel _ _ _)) in H1.
  apply (quiet_return_s3 _ _ _ _ _ _
           (fetch_all_pages_quiet rt env fuel _ _ _)) in H2.
  apply (quiet_return_s3 _ _ _ _ _ _ (fetch_genres_quiet rt env)) in H3.
  apply lift_return in H4, H5, H6, H7.
  destruct H4 as [_ ->], H5 as [_ ->], H6 as [_ ->], H7 as [_ ->].
  apply write_return in H8, H9, H10.
  apply (quiet_return_s3 any any _ _ _ _ (quiet_log any _ _)) in H11.
  eexists _, _, _. split; [|split].
  - apply new_objects_app.
    rewrite H11, H10, H9, H8, H3, H2, H1, H0, <- !app_assoc. reflexivity.
  - reflexivity.
  - rewrite !data_rows_written. reflexivity.
Qed.

Lemma lambda_handler_summary_witness :
  exists (v : pyval) (top_rated upcoming genres : S3Put),
    fst (lambda_handler demo_rt two_page_env 4 PyNone PyNone init_state)
    = Return v
    /\ new_objects init_state
         (snd (lambda_handler demo_rt two_page_env 4 PyNone PyNone init_state))
       = [ top_rated; upcoming; genres ]
    /\ (data_rows top_rated, data_rows upcoming, data_rows genres) = (3, 1, 1)
    /\ dict_get (match v with PyDict d => d | _ => [] end) "statusCode"
       = Some (PyInt 200).
Proof.
  eexists.
  assert (Hv : fst (lambda_handler demo_rt two_page_env 4 PyNone PyNone
                      init_state) = Return _) by (vm_compute; reflexivity).
  destruct (lambda_handler_summary demo_rt two_page_env 4 PyNone PyNone
              init_state _ Hv) as (top_rated & upcoming & genres & Hobjs & _ & _).
  exists top_rated, upcoming, genres.
  split; [exact Hv|]. split; [exact Hobjs|].
  split; [|reflexivity].
  assert (Hcomputed : map data_rows
                        (new_objects init_state
                           (snd (lambda_handler demo_rt two_page_env 4 PyNone
                                   PyNone init_state))) = [3; 1; 1])
    by (vm_compute; reflexivity).
  rewrite Hobjs in Hcomputed. cbn [map] in Hcomputed.
  injection Hcomputed as -> -> ->. reflexivity.
Defined.

(** ** Entry point: termination and the number of requests *)












(** ** The token and the page limit *)

(** X15: the client treats an empty token like a missing one.  With
    [TMDB_API_TOKEN] unset or empty, every client call raises the
    configuration error after logging it, and [urlopen] is not called. *)
Theorem make_request_requires_token (rt : Runtime) (env : Env)
  (endpoint : string) (params : option dict) (st : state) :
  TMDB_API_TOKEN env = None \/ TMDB_API_TOKEN env = Some EmptyString ->
  let r := _make_tmdb_request rt env endpoint params st in
  fst r = Raise (RuntimeError "TMDB_API_TOKEN environment variable is required")
  /\ st_net (snd r) = st_net st
  /\ new_log st (snd r)
     = [ ("ERROR", "TMDB_API_TOKEN environment variable is not set") ].
Proof.
  intros Htoken r. subst r.
  assert (Htok : token_missing env = true)
    by (unfold token_missing; destruct Htoken as [-> | ->]; reflexivity).
  rewrite (make_request_missing_token rt env endpoint params st Htok).
  unfold new_log. cbn [fst snd add_log st_net st_log].
  rewrite skipn_length_app. repeat split.
Qed.

Lemma make_request_requires_token_witness :
  let r := _make_tmdb_request demo_rt
             (mk_env (Some EmptyString) (urlopen two_page_env)
                (put_object two_page_env))
             "/movie/top_rated" en_US init_state in
  fst r = Raise (RuntimeError "TMDB_API_TOKEN environment variable is required")
  /\ st_net (snd r) = []
  /\ new_log init_state (snd r)
     = [ ("ERROR", "TMDB_API_TOKEN environment variable is not set") ].
Proof.
  apply (make_request_requires_token demo_rt
           (mk_env (Some EmptyString) (urlopen two_page_env)
              (put_object two_page_env))
           "/movie/top_rated" en_US init_state).
  right. reflexivity.
Defined.

(** X16: a page limit at or above the number of pages the endpoint has
    (capped at 500) changes nothing: the pager sends the same requests and
    returns the same results as without a limit. *)
Theorem fetch_all_pages_large_limit (rt : Runtime) (env : Env) (fuel : nat)
  (endpoint : string) (extra_params : option dict) (M T : Z)
  (pages : Z -> list pyval) (st : state) :
  token_missing env = false ->
  Z.min (Z.max T 1) 500 <= M ->
  (forall p, 1 <= p <= Z.min (Z.max T 1) 500 ->
             answers_page rt env endpoint extra_params T (pages p) p) ->
  (Z.to_nat (Z.min (Z.max T 1) 500) <= S fuel)%nat ->
  let limited :=
    fetch_all_pages rt env fuel endpoint extra_params (Some M) st in
  let unlimited :=
    fetch_all_pages rt env fuel endpoint extra_params None st in
  fst limited = fst unlimited
  /\ new_requests st (snd limited) = new_requests st (snd unlimited)
  /\ List.length (new_requests st (snd limited))
     = Z.to_nat (Z.min (Z.max T 1) 500).
Proof.
  intros Htok HM Hans Hfuel limited unlimited.
  assert (Hsome : stop_page (Some M) T = Z.min (Z.max T 1) 500)
    by (unfold stop_page; lia).
  assert (Hnone : stop_page None T = Z.min (Z.max T 1) 500) by reflexivity.
  destruct (fetch_all_pages_run rt env fuel endpoint extra_params (Some M) T
              pages st Htok) as (Hret1 & Hreq1);
    [rewrite Hsome; exact Hans | rewrite Hsome; exact Hfuel |].
  destruct (fetch_all_pages_run rt env fuel endpoint extra_params None T
              pages st Htok) as (Hret2 & Hreq2);
    [rewrite Hnone; exact Hans | rewrite Hnone; exact Hfuel |].
  fold limited in Hret1, Hreq1. fold unlimited in Hret2, Hreq2.
  rewrite Hret1, Hret2, Hreq1, Hreq2, Hsome, Hnone.
  split; [reflexivity|]. split; [reflexivity|].
  unfold pages_upto. rewrite !length_map, length_seq. reflexivity.
Qed.

Lemma fetch_all_pages_large_limit_witness :
  let limited := fetch_all_pages demo_rt two_page_env 4 "/movie/top_rated"
                   en_US (Some 2) init_state in
  let unlimited := fetch_all_pages demo_rt two_page_env 4 "/movie/top_rated"
                     en_US None init_state in
  fst limited = fst unlimited
  /\ new_requests init_state (snd limited)
     = new_requests init_state (snd unlimited)
  /\ List.length (new_requests init_state (snd limited)) = 2%nat.
Proof.
  apply (fetch_all_pages_large_limit demo_rt two_page_env 4 "/movie/top_rated"
           en_US 2 2
           (fun p : Z =>
              if p =? 1 then [ PyDict [("id", PyInt 11)] ]
              else [ PyDict [("id", PyInt 12)]; PyDict [("id", PyInt 13)] ])
           init_state).
  - reflexivity.
  - lia.
  - intros p Hp. apply two_page_env_answers. lia.
  - vm_compute. lia.
Defined.
